(** * EduBot command-line client (main.py): request/response path

    A shallow embedding of [load_syllabus_data], [create_request_data],
    [make_request], [chat_with_gpt] and [setup_session], together with the
    parts of the Python runtime and of the [requests]/[urllib3] libraries
    that these functions call, followed by the properties of the
    request/response path.

    Conventions.
    - A Python [str] is a list of Unicode code points, a [bytes] object a
      list of bytes.
    - A computation is a pair: what it returned or raised, and the records
      it sent to the [logging] module.
    - What the libraries and the operating system decide (the JSON decoder,
      the process environment, the server) is an explicit parameter. *)

From Stdlib Require Import List String Ascii ZArith NArith Bool Lia.
From Stdlib Require Import Strings.Byte DecimalString.
Import ListNotations.

Set Implicit Arguments.
#[local] Set Warnings "-register-all".
Local Open Scope N_scope.

(* ===================================================================== *)
(** * Python strings and bytes *)
(* ===================================================================== *)

Definition pystr := list N.
Definition pybytes := list byte.

(** A literal of the source text. *)
Definition str (s : string) : pystr :=
  map N_of_ascii (list_ascii_of_string s).

(** A [bytes] literal; an apostrophe stands for the double quote, which
    keeps JSON text readable. *)
Definition json_bytes (s : string) : pybytes :=
  map (fun b => if Byte.eqb b x27 then x22 else b) (list_byte_of_string s).

Fixpoint str_eqb (a b : pystr) : bool :=
  match a, b with
  | [], [] => true
  | x :: a', y :: b' => (x =? y) && str_eqb a' b'
  | _, _ => false
  end.

Fixpoint startswith (s prefix : pystr) : bool :=
  match prefix, s with
  | [], _ => true
  | p :: prefix', c :: s' => (c =? p) && startswith s' prefix'
  | _ :: _, [] => false
  end.

(** ** [str.strip()]

    The characters [str.strip] removes are the ones [str.isspace] accepts:
    the ASCII separators and the Unicode White_Space code points. *)
Definition isspace (c : N) : bool :=
  ((0x09 <=? c) && (c <=? 0x0D)) || ((0x1C <=? c) && (c <=? 0x20))
  || (c =? 0x85) || (c =? 0xA0) || (c =? 0x1680)
  || ((0x2000 <=? c) && (c <=? 0x200A))
  || (c =? 0x2028) || (c =? 0x2029) || (c =? 0x202F) || (c =? 0x205F)
  || (c =? 0x3000).

Fixpoint lstrip (s : pystr) : pystr :=
  match s with
  | c :: s' => if isspace c then lstrip s' else s
  | [] => []
  end.

Definition rstrip (s : pystr) : pystr := rev (lstrip (rev s)).

Definition strip (s : pystr) : pystr := rstrip (lstrip s).

(** No white space at either end. *)
Definition trimmed (s : pystr) : Prop :=
  (forall c s', s = c :: s' -> isspace c = false) /\
  (forall c s', s = s' ++ [c] -> isspace c = false).

(** ** [bytes.decode('utf-8')]

    The strict UTF-8 codec: shortest forms only, no surrogates, nothing
    above U+10FFFF. [None] stands for [UnicodeDecodeError]. *)
Definition between (lo hi b : N) : bool := (lo <=? b) && (b <=? hi).

Definition continuation (b : N) : bool := between 0x80 0xBF b.

Fixpoint utf_8_decode (bs : list N) : option pystr :=
  match bs with
  | [] => Some []
  | b0 :: t0 =>
    if b0 <? 0x80 then option_map (cons b0) (utf_8_decode t0)
    else if between 0xC2 0xDF b0 then
      match t0 with
      | b1 :: t1 =>
        if continuation b1
        then option_map (cons ((b0 - 0xC0) * 64 + (b1 - 0x80))) (utf_8_decode t1)
        else None
      | _ => None
      end
    else if between 0xE0 0xEF b0 then
      match t0 with
      | b1 :: b2 :: t2 =>
        let lo := if b0 =? 0xE0 then 0xA0 else 0x80 in
        let hi := if b0 =? 0xED then 0x9F else 0xBF in
        if between lo hi b1 && continuation b2
        then option_map
               (cons ((b0 - 0xE0) * 4096 + (b1 - 0x80) * 64 + (b2 - 0x80)))
               (utf_8_decode t2)
        else None
      | _ => None
      end
    else if between 0xF0 0xF4 b0 then
      match t0 with
      | b1 :: b2 :: b3 :: t3 =>
        let lo := if b0 =? 0xF0 then 0x90 else 0x80 in
        let hi := if b0 =? 0xF4 then 0x8F else 0xBF in
        if between lo hi b1 && continuation b2 && continuation b3
        then option_map
               (cons ((b0 - 0xF0) * 262144 + (b1 - 0x80) * 4096
                      + (b2 - 0x80) * 64 + (b3 - 0x80)))
               (utf_8_decode t3)
        else None
      | _ => None
      end
    else None
  end.

Definition bytes_decode (line : pybytes) : option pystr :=
  utf_8_decode (map Byte.to_N line).

(* ===================================================================== *)
(** * Exceptions *)
(* ===================================================================== *)

(** The classes of [requests.exceptions] that a request of this program can
    raise, with their base classes inside that module. *)
Inductive requests_class : Set :=
| RequestException | InvalidJSONError | HTTPError | ConnectionError
| ProxyError | SSLError | Timeout | ConnectTimeout | ReadTimeout
| URLRequired | TooManyRedirects | MissingSchema | InvalidSchema
| InvalidURL | InvalidHeader | InvalidProxyURL | ChunkedEncodingError
| ContentDecodingError | StreamConsumedError | RetryError
| UnrewindableBodyError.

Scheme Equality for requests_class.

Definition bases (c : requests_class) : list requests_class :=
  match c with
  | RequestException => []
  | ProxyError | SSLError => [ConnectionError]
  | ConnectTimeout => [ConnectionError; Timeout]
  | ReadTimeout => [Timeout]
  | InvalidProxyURL => [InvalidURL]
  | _ => [RequestException]
  end.

Fixpoint subclass_within (depth : nat) (c target : requests_class) : bool :=
  requests_class_beq c target ||
  match depth with
  | O => false
  | S d => existsb (fun b => subclass_within d b target) (bases c)
  end.

(** The hierarchy is three levels deep. *)
Definition issubclass : requests_class -> requests_class -> bool :=
  subclass_within 3.

(** What a call can raise. [JSONDecodeError] is [json.JSONDecodeError];
    [ValueError] is the builtin itself, of which [JSONDecodeError] is a
    subclass, so that a handler for [JSONDecodeError] does not catch it;
    [OSError] stands for the subclasses of the builtin other than
    [FileNotFoundError]. *)
Inductive exn : Type :=
| UnicodeDecodeError
| JSONDecodeError (msg : string)
| AttributeError
| TypeError
| RecursionError
| ValueError (msg : string)
| FileNotFoundError
| OSError (name : string)
| Requests (cls : requests_class) (detail : pystr).

(** [isinstance(e, requests.exceptions.<target>)] *)
Definition isinstance (e : exn) (target : requests_class) : bool :=
  match e with
  | Requests cls _ => issubclass cls target
  | _ => false
  end.

(** [str(e)] for the exceptions whose text the program prints. *)
Definition exn_str (e : exn) : pystr :=
  match e with
  | Requests _ detail => detail
  | JSONDecodeError msg => str msg
  | _ => []
  end.

(* ===================================================================== *)
(** * Computations: result or exception, and the log *)
(* ===================================================================== *)

Inductive levelname : Set := DEBUG | ERROR.

(** The messages the program formats, with the values interpolated. *)
Inductive message : Type :=
| Decoded_line (decoded_line : pystr)
| JSON_decode_error_for_line (line : pybytes) (json_err : string)
| HTTP_error_occurred (http_err : pystr)
| Connection_error_occurred (conn_err : pystr)
| Timeout_error_occurred (timeout_err : pystr)
| Request_exception_occurred (req_err : pystr)
| File_not_found (file : pystr)
| JSON_decode_error_for_file (file : pystr) (json_err : string).

Definition log_record : Type := levelname * message.

Definition py (A : Type) : Type := (exn + A) * list log_record.

Definition ret {A} (a : A) : py A := (inr a, []).

Definition raise {A} (e : exn) : py A := (inl e, []).

Definition bind {A B} (m : py A) (k : A -> py B) : py B :=
  match m with
  | (inl e, lg) => (inl e, lg)
  | (inr a, lg) => let (r, lg') := k a in (r, lg ++ lg')
  end.

(** A library call that logs nothing. *)
Definition call {A} (r : exn + A) : py A := (r, []).

Definition logging_debug (m : message) : py unit := (inr tt, [(DEBUG, m)]).

Definition logging_error (m : message) : py unit := (inr tt, [(ERROR, m)]).

(** [try: m  except ...: handler]; the handler answers [None] for an
    exception no clause matches, which then propagates. *)
Definition try_except {A} (m : py A) (handler : exn -> option (py A)) : py A :=
  match m with
  | (inl e, lg) =>
    match handler e with
    | Some h => let (r, lg') := h in (r, lg ++ lg')
    | None => (inl e, lg)
    end
  | (inr a, lg) => (inr a, lg)
  end.

Declare Scope py_scope.
Delimit Scope py_scope with py.
Notation "x <- m ;; k" := (bind m (fun x => k))
  (at level 61, m at next level, right associativity) : py_scope.
Notation "m ;; k" := (bind m (fun _ => k))
  (at level 61, right associativity) : py_scope.

Definition result {A} (m : py A) : exn + A := fst m.
Definition logged {A} (m : py A) : list log_record := snd m.

(* ===================================================================== *)
(** * JSON values and dictionaries *)
(* ===================================================================== *)

(** A float is kept as the decimal literal it was read from; the program
    only ever asks whether a float is zero. *)
Inductive pyfloat : Set :=
| Decimal (negative : bool) (digits : N) (exponent : Z)
| NaN
| Infinity (negative : bool).

Inductive json : Type :=
| JNull
| JBool (b : bool)
| JInt (n : Z)
| JFloat (f : pyfloat)
| JStr (s : pystr)
| JList (items : list json)
| JDict (items : list (pystr * json)).

(** A [dict] with [str] keys, in insertion order. *)
Definition dict (V : Type) : Type := list (pystr * V).

Fixpoint dict_get {V} (d : dict V) (key : pystr) : option V :=
  match d with
  | [] => None
  | (k, v) :: d' => if str_eqb k key then Some v else dict_get d' key
  end.

(** [d[key] = v]: an existing key keeps its place. *)
Fixpoint dict_set {V} (d : dict V) (key : pystr) (v : V) : dict V :=
  match d with
  | [] => [(key, v)]
  | (k, w) :: d' =>
    if str_eqb k key then (k, v) :: d' else (k, w) :: dict_set d' key v
  end.

(** [key in d] *)
Definition dict_contains {V} (d : dict V) (key : pystr) : bool :=
  match dict_get d key with Some _ => true | None => false end.

(** [d.get(key, default)] *)
Definition dict_get_default {V} (d : dict V) (key : pystr) (default : V) : V :=
  match dict_get d key with Some v => v | None => default end.

(** The literal rounds to [0.0] when it is at most half the smallest
    subnormal, [2^-1075]. *)
Definition float_is_zero (f : pyfloat) : bool :=
  match f with
  | Decimal _ digits exponent =>
    (digits =? 0) ||
    match exponent with
    | Zneg p => (Z.of_N digits * 2 ^ 1075 <=? 10 ^ Zpos p)%Z
    | _ => false
    end
  | NaN | Infinity _ => false
  end.

(** [bool(v)] *)
Definition truthy (v : json) : bool :=
  match v with
  | JNull => false
  | JBool b => b
  | JInt n => negb (n =? 0)%Z
  | JFloat f => negb (float_is_zero f)
  | JStr s => match s with [] => false | _ => true end
  | JList items => match items with [] => false | _ => true end
  | JDict items => match items with [] => false | _ => true end
  end.

(** [obj.get(key, default)]: only a [dict] has the method. *)
Definition py_get (obj : json) (key : pystr) (default : json) : exn + json :=
  match obj with
  | JDict items => inr (dict_get_default items key default)
  | _ => inl AttributeError
  end.

(** [s += v] for a [str] on the left. *)
Definition str_iadd (s : pystr) (v : json) : exn + pystr :=
  match v with
  | JStr t => inr (s ++ t)
  | _ => inl TypeError
  end.

(* ===================================================================== *)
(** * The [json] module *)
(* ===================================================================== *)

(** [json.loads] on a [str]. The program depends on the decoder only
    through this signature, so the decoder is a parameter of everything
    below; [JsonReference.loads] further down is the one used to run
    examples. *)
Class Json : Type := json_loads : pystr -> exn + json.

Module JsonReference.

Definition decode_error {A} (msg : string) : exn + A :=
  inl (JSONDecodeError msg).

Definition expecting_value {A} : exn + A := decode_error "Expecting value".

Definition whitespace (c : N) : bool :=
  (c =? 32) || (c =? 9) || (c =? 10) || (c =? 13).

Fixpoint skip (s : pystr) : pystr :=
  match s with
  | c :: s' => if whitespace c then skip s' else s
  | [] => []
  end.

Definition digit (c : N) : bool := between 48 57 c.

Definition hexval (c : N) : option N :=
  if digit c then Some (c - 48)
  else if between 97 102 c then Some (c - 87)
  else if between 65 70 c then Some (c - 55)
  else None.

Definition hex4 (s : pystr) : option (N * pystr) :=
  match s with
  | a :: b :: c :: d :: rest =>
    match hexval a, hexval b, hexval c, hexval d with
    | Some a, Some b, Some c, Some d =>
      Some (((a * 16 + b) * 16 + c) * 16 + d, rest)
    | _, _, _, _ => None
    end
  | _ => None
  end.

(** The character a backslash escape other than [\u] stands for. *)
Definition escape (c : N) : option N :=
  if (c =? 34) || (c =? 92) || (c =? 47) then Some c
  else if c =? 98 then Some 8
  else if c =? 102 then Some 12
  else if c =? 110 then Some 10
  else if c =? 114 then Some 13
  else if c =? 116 then Some 9
  else None.

(** The body of a string, from just after its opening quote. *)
Fixpoint scanstring (fuel : nat) (s : pystr) (acc : pystr)
  : exn + (pystr * pystr) :=
  match fuel, s with
  | S fuel, c :: rest =>
    if c =? 34 then inr (rev acc, rest)
    else if c =? 92 then
      match rest with
      | [] => decode_error "Unterminated string starting at"
      | e :: rest1 =>
        if e =? 117 then
          match hex4 rest1 with
          | None => decode_error "Invalid \uXXXX escape"
          | Some (u, rest2) =>
            let single := scanstring fuel rest2 (u :: acc) in
            if between 0xD800 0xDBFF u then
              match rest2 with
              | b :: v :: rest3 =>
                if (b =? 92) && (v =? 117) then
                  match hex4 rest3 with
                  | None => decode_error "Invalid \uXXXX escape"
                  | Some (u2, rest4) =>
                    if between 0xDC00 0xDFFF u2
                    then scanstring fuel rest4
                           (0x10000 + (u - 0xD800) * 1024 + (u2 - 0xDC00)
                            :: acc)
                    else single
                  end
                else single
              | _ => single
              end
            else single
          end
        else
          match escape e with
          | Some x => scanstring fuel rest1 (x :: acc)
          | None => decode_error "Invalid \escape"
          end
      end
    else if c <? 32 then decode_error "Invalid control character at"
    else scanstring fuel rest (c :: acc)
  | _, _ => decode_error "Unterminated string starting at"
  end.

(** A run of decimal digits: its value, its length, what follows. *)
Fixpoint digits (s : pystr) (value : N) (count : Z) : N * Z * pystr :=
  match s with
  | c :: s' =>
    if digit c then digits s' (value * 10 + (c - 48)) (count + 1)%Z
    else (value, count, s)
  | [] => (value, count, [])
  end.

Definition signed (negative : bool) (n : N) : Z :=
  if negative then (- Z.of_N n)%Z else Z.of_N n.

(** The longest digit string that [int] converts
    ([sys.get_int_max_str_digits()], from Python 3.11 on). *)
Definition MAX_STR_DIGITS : Z := 4300.

(** A number: an optional minus sign; a zero or a digit run that does not
    start with zero; an optional fraction (a dot and digits); an optional
    exponent (e or E, an optional sign, digits). A number with neither
    fraction nor exponent is converted by [int], which refuses more than
    [MAX_STR_DIGITS] digits. *)
Definition match_number (s : pystr) : option ((exn + json) * pystr) :=
  let (negative, s1) :=
    match s with
    | c :: t => if c =? 45 then (true, t) else (false, s)
    | [] => (false, s)
    end in
  let integer :=
    match s1 with
    | c :: t =>
      if c =? 48 then Some (0, 1%Z, t)
      else if digit c then Some (digits s1 0 0%Z)
      else None
    | [] => None
    end in
  match integer with
  | None => None
  | Some (int_part, int_len, s2) =>
    let '(mantissa, frac_len, s3) :=
      match s2 with
      | dot :: d :: _ =>
        if (dot =? 46) && digit d then digits (tl s2) int_part 0%Z
        else (int_part, 0%Z, s2)
      | _ => (int_part, 0%Z, s2)
      end in
    let '(exponent, s4) :=
      match s3 with
      | e :: after =>
        if (e =? 101) || (e =? 69) then
          let (exp_negative, s') :=
            match after with
            | sg :: t =>
              if sg =? 45 then (true, t)
              else if sg =? 43 then (false, t) else (false, after)
            | [] => (false, after)
            end in
          match s' with
          | d :: _ =>
            if digit d
            then let '(v, _, r) := digits s' 0 0%Z in
                 (Some (signed exp_negative v), r)
            else (None, s3)
          | [] => (None, s3)
          end
        else (None, s3)
      | [] => (None, s3)
      end in
    match frac_len, exponent with
    | 0%Z, None =>
      if (MAX_STR_DIGITS <? int_len)%Z
      then Some (inl (ValueError
                        "Exceeds the limit (4300 digits) for integer string conversion"),
                 s4)
      else Some (inr (JInt (signed negative int_part)), s4)
    | _, _ =>
      let e := match exponent with Some e => e | None => 0%Z end in
      Some (inr (JFloat (Decimal negative mantissa (e - frac_len)%Z)), s4)
    end
  end.

(** The scanner works within [room], the depth of recursion that the
    interpreter still allows where it stands. Making a [JSONDecodeError]
    there takes calls three deep, and where fewer are left a
    [RecursionError] is raised in its place. The error for a missing value
    is made by the caller of the scanner and is no concern here. *)
Definition scanner_error {A} (room : nat) (msg : string) : exn + A :=
  if (room <? 3)%nat then inl RecursionError else decode_error msg.

Definition raised_within {A} (room : nat) (r : exn + A) : exn + A :=
  match r with
  | inl (JSONDecodeError msg) => scanner_error room msg
  | _ => r
  end.

(** The constants that are handed to [parse_constant], which is a call. *)
Definition parse_constant {A} (room : nat) (r : A) : exn + A :=
  match room with
  | O => inl RecursionError
  | S _ => inr r
  end.

Section Containers.

(** The room inside the container. *)
Variable room : nat.

(** The scanner for one value, which the containers call back. The loops
    over the elements and the members are bounded by [fuel], which is the
    length of the text when they start and so never runs out. *)
Variable scan : pystr -> exn + (json * pystr).

(** The elements of an array, from the first one. *)
Fixpoint parse_array (fuel : nat) (s : pystr) (acc : list json)
  : exn + (json * pystr) :=
  match fuel with
  | O => inl RecursionError
  | S fuel =>
    match scan s with
    | inl e => inl e
    | inr (v, rest) =>
      match skip rest with
      | c :: rest' =>
        if c =? 93 then inr (JList (rev (v :: acc)), rest')
        else if c =? 44 then parse_array fuel (skip rest') (v :: acc)
        else scanner_error room "Expecting ',' delimiter"
      | [] => scanner_error room "Expecting ',' delimiter"
      end
    end
  end.

(** The members of an object, from the first key. *)
Fixpoint parse_object (fuel : nat) (s : pystr) (acc : dict json)
  : exn + (json * pystr) :=
  match fuel, s with
  | O, _ => inl RecursionError
  | S fuel, c :: rest =>
    if c =? 34 then
      match raised_within room (scanstring (List.length rest) rest []) with
      | inl e => inl e
      | inr (key, rest1) =>
        match skip rest1 with
        | c1 :: rest2 =>
          if c1 =? 58 then
            match scan (skip rest2) with
            | inl e => inl e
            | inr (v, rest3) =>
              match skip rest3 with
              | c2 :: rest4 =>
                if c2 =? 125 then inr (JDict (dict_set acc key v), rest4)
                else if c2 =? 44
                then parse_object fuel (skip rest4) (dict_set acc key v)
                else scanner_error room "Expecting ',' delimiter"
              | [] => scanner_error room "Expecting ',' delimiter"
              end
            end
          else scanner_error room "Expecting ':' delimiter"
        | [] => scanner_error room "Expecting ':' delimiter"
        end
      end
    else
      scanner_error room "Expecting property name enclosed in double quotes"
  | S _, [] =>
    scanner_error room "Expecting property name enclosed in double quotes"
  end.

End Containers.

Definition constant (name : string) (v : json) (s : pystr)
  : option (json * pystr) :=
  if startswith s (str name)
  then Some (v, skipn (List.length (str name)) s) else None.

(** The scanner for one value. Each array or object that is entered takes
    one from [room]; a string, a number, [null], [true] or [false] takes
    none. *)
Fixpoint scan_once (room : nat) (s : pystr) : exn + (json * pystr) :=
  match s with
  | [] => expecting_value
  | c :: rest =>
    if c =? 34 then
      match raised_within room (scanstring (List.length rest) rest []) with
      | inl e => inl e
      | inr (text, rest') => inr (JStr text, rest')
      end
    else if c =? 123 then
      match room with
      | O => inl RecursionError
      | S inside =>
        match skip rest with
        | [] =>
          scanner_error inside
            "Expecting property name enclosed in double quotes"
        | (c' :: rest') as s' =>
          if c' =? 125 then inr (JDict [], rest')
          else parse_object inside (scan_once inside) (List.length s') s' []
        end
      end
    else if c =? 91 then
      match room with
      | O => inl RecursionError
      | S inside =>
        match skip rest with
        | [] => expecting_value
        | (c' :: rest') as s' =>
          if c' =? 93 then inr (JList [], rest')
          else parse_array inside (scan_once inside) (List.length s') s' []
        end
      end
    else
      match constant "null" JNull s with Some r => inr r | None =>
      match constant "true" (JBool true) s with Some r => inr r | None =>
      match constant "false" (JBool false) s with Some r => inr r | None =>
      match constant "NaN" (JFloat NaN) s with
      | Some r => parse_constant room r | None =>
      match constant "Infinity" (JFloat (Infinity false)) s with
      | Some r => parse_constant room r | None =>
      match constant "-Infinity" (JFloat (Infinity true)) s with
      | Some r => parse_constant room r | None =>
      match match_number s with
      | Some (inr v, rest') => inr (v, rest')
      | Some (inl e, _) => inl e
      | None => expecting_value
      end end end end end end end
  end.

(** The arrays and objects that may be open at once where the program calls
    [json.loads] and [json.load]: CPython 3.11 stops at a depth of 1000,
    of which the calls that lead there have used eight. Another
    interpreter stops elsewhere; each one stops somewhere. *)
Definition recursion_room : nat := 992.

(** [json.loads(s)] *)
Definition loads (s : pystr) : exn + json :=
  if startswith s [0xFEFF]
  then decode_error "Unexpected UTF-8 BOM (decode using utf-8-sig)"
  else
    match scan_once recursion_room (skip s) with
    | inl e => inl e
    | inr (v, rest) =>
      match skip rest with
      | [] => inr v
      | _ :: _ => decode_error "Extra data"
      end
    end.

End JsonReference.

(** The decoder that examples run with. *)
Definition reference_json : Json := JsonReference.loads.

(* ===================================================================== *)
(** * [requests] and [urllib3] *)
(* ===================================================================== *)

(** A response whose body is read as a stream: [iter_lines] yields [lines]
    one after the other and then either stops or, when the connection
    breaks while the body is read, raises [stream_error]. *)
Record Response : Type := {
  status_code : Z;
  reason : pystr;
  url : pystr;
  lines : list pybytes;
  stream_error : option exn
}.

(** [f"{n}"] for an [int] *)
Definition format_int (n : Z) : pystr :=
  str (DecimalString.NilZero.string_of_int (Z.to_int n)).

(** [Response.raise_for_status] *)
Definition raise_for_status (r : Response) : exn + unit :=
  let n := status_code r in
  if ((400 <=? n) && (n <? 500))%Z then
    inl (Requests HTTPError
           (format_int n ++ str " Client Error: " ++ reason r
            ++ str " for url: " ++ url r))
  else if ((500 <=? n) && (n <? 600))%Z then
    inl (Requests HTTPError
           (format_int n ++ str " Server Error: " ++ reason r
            ++ str " for url: " ++ url r))
  else inr tt.

(** ** [urllib3.util.retry.Retry]

    [total] is the number of retries allowed, so the first attempt is not
    counted in it. The counters the program leaves unset ([connect], [read],
    [redirect], [status], [other]) are absent here. *)
Record Retry : Type := {
  total : nat;
  backoff_factor : N;
  status_forcelist : list Z;
  allowed_methods : list pystr;
  raise_on_status : bool;
  respect_retry_after_header : bool
}.

(** The failures of one attempt that leave no response. *)
Inductive urllib3_error : Set :=
| ConnectTimeoutError | NewConnectionError | ReadTimeoutError
| ProtocolError | Urllib3SSLError | Urllib3ProxyError.

(** The statuses that, with a [Location] header, make a response a
    redirect: 301, 302, 303, 307 and 308. *)
Inductive redirect_status : Set :=
| Moved_Permanently | Found | See_Other
| Temporary_Redirect | Permanent_Redirect.

(** What one attempt meets: a response that is not a redirect, with or
    without a [Retry-After] header; a redirect that the session follows (one
    of the five statuses, with a [Location]), whose body is read first
    ([unread] is what reading it raises, if anything) and which leads to the
    server that the next request meets; or a failure, with its [str] and
    its [repr].

    A request as the network treats it: either it cannot be prepared or has
    no adapter ([MissingSchema], [InvalidURL], [InvalidSchema],
    [InvalidJSONError]) and nothing is sent, or it goes to a connection
    pool, whose text and the path asked for appear in the error messages,
    and meets the outcome of its n-th attempt, counted from 0. *)
Inductive attempt : Type :=
| Answered (r : Response) (has_retry_after : bool)
| Redirected (status : redirect_status) (unread : option exn) (onward : server)
| Failed (e : urllib3_error) (text repr : pystr)
with server : Type :=
| Unsent (e : exn)
| Sent (pool path : pystr) (attempts : nat -> attempt).

Definition is_redirect (a : attempt) : bool :=
  match a with
  | Redirected _ _ _ => true
  | _ => false
  end.

Definition is_method_retryable (r : Retry) (method : pystr) : bool :=
  match allowed_methods r with
  | [] => true
  | allowed => existsb (str_eqb method) allowed
  end.

Definition RETRY_AFTER_STATUS_CODES : list Z := [413; 429; 503]%Z.

(** [Retry.is_retry], for a policy whose [total] now stands at [total_now] *)
Definition is_retry (r : Retry) (total_now : nat) (method : pystr)
    (status : Z) (has_retry_after : bool) : bool :=
  if negb (is_method_retryable r method) then false
  else if existsb (Z.eqb status) (status_forcelist r) then true
  else
    negb (total_now =? 0)%nat && respect_retry_after_header r
    && has_retry_after && existsb (Z.eqb status) RETRY_AFTER_STATUS_CODES.

Definition is_read_error (e : urllib3_error) : bool :=
  match e with
  | ReadTimeoutError | ProtocolError => true
  | _ => false
  end.

Inductive urlopen_result : Type :=
| Returned (r : Response)
| Returned_redirect (status : redirect_status) (unread : option exn)
    (onward : server)
| MaxRetryError_response (status : Z)
| MaxRetryError_error (e : urllib3_error) (repr : pystr)
| Reraised (e : urllib3_error) (text : pystr).

(** [HTTPConnectionPool.urlopen], called with [redirect=False], with its
    calls of [Retry.increment]: each retry takes one from [total], and the
    policy is exhausted when that would leave less than zero. [made] counts
    the attempts so far; the result carries the number of attempts made in
    all. A redirect has none of the statuses that are retried and is handed
    back as it is. The pauses between attempts are not represented. *)
Fixpoint urlopen (r : Retry) (method : pystr) (attempts : nat -> attempt)
    (total_now made : nat) : urlopen_result * nat :=
  match attempts made with
  | Failed e text repr =>
    if is_read_error e && negb (is_method_retryable r method)
    then (Reraised e text, S made)
    else
      match total_now with
      | O => (MaxRetryError_error e repr, S made)
      | S total_next => urlopen r method attempts total_next (S made)
      end
  | Redirected status unread onward =>
    (Returned_redirect status unread onward, S made)
  | Answered resp has_retry_after =>
    if is_retry r total_now method (status_code resp) has_retry_after then
      match total_now with
      | O =>
        if raise_on_status r
        then (MaxRetryError_response (status_code resp), S made)
        else (Returned resp, S made)
      | S total_next => urlopen r method attempts total_next (S made)
      end
    else (Returned resp, S made)
  end.

(** [str] of a [MaxRetryError]: the pool, the path and the [repr] of the
    reason. *)
Definition MaxRetryError_str (pool path reason_repr : pystr) : pystr :=
  pool ++ str ": Max retries exceeded with url: " ++ path
  ++ str " (Caused by " ++ reason_repr ++ str ")".

(** [repr] of the [ResponseError] that [Retry.increment] makes when the
    retries of a status are used up. *)
Definition ResponseError_repr (status : Z) : pystr :=
  str "ResponseError('too many " ++ format_int status
  ++ str " error responses')".

Record HTTPAdapter : Type := { max_retries : Retry }.

(** What the adapter hands back: a response to return, or a redirect for
    the session to follow. *)
Inductive sent : Type :=
| Final (r : Response)
| Elsewhere (status : redirect_status) (unread : option exn) (onward : server).

(** [HTTPAdapter.send]: the exceptions of [urllib3] become those of
    [requests], which keep their text. *)
Definition HTTPAdapter_send (a : HTTPAdapter) (method pool path : pystr)
    (attempts : nat -> attempt) : (exn + sent) * nat :=
  let (outcome, made) :=
    urlopen (max_retries a) method attempts (total (max_retries a)) 0 in
  (match outcome with
   | Returned resp => inr (Final resp)
   | Returned_redirect status unread onward =>
     inr (Elsewhere status unread onward)
   | MaxRetryError_response status =>
     inl (Requests RetryError
            (MaxRetryError_str pool path (ResponseError_repr status)))
   | MaxRetryError_error ConnectTimeoutError repr =>
     inl (Requests ConnectTimeout (MaxRetryError_str pool path repr))
   | MaxRetryError_error Urllib3ProxyError repr =>
     inl (Requests ProxyError (MaxRetryError_str pool path repr))
   | MaxRetryError_error Urllib3SSLError repr =>
     inl (Requests SSLError (MaxRetryError_str pool path repr))
   | MaxRetryError_error _ repr =>
     inl (Requests ConnectionError (MaxRetryError_str pool path repr))
   | Reraised ReadTimeoutError text => inl (Requests ReadTimeout text)
   | Reraised Urllib3SSLError text => inl (Requests SSLError text)
   | Reraised Urllib3ProxyError text => inl (Requests ProxyError text)
   | Reraised _ text => inl (Requests ConnectionError text)
   end, made).

(** [SessionRedirectMixin.rebuild_method]: what the method of the request
    becomes when a redirect is followed. *)
Definition rebuild_method (status : redirect_status) (method : pystr)
  : pystr :=
  match status with
  | See_Other | Found =>
    if str_eqb method (str "HEAD") then method else str "GET"
  | Moved_Permanently =>
    if str_eqb method (str "POST") then str "GET" else method
  | Temporary_Redirect | Permanent_Redirect => method
  end.

Definition DEFAULT_REDIRECT_LIMIT : nat := 30.

(** [Session.send] with [allow_redirects=True], as [Session.post] calls it:
    the request is sent through the adapter, and while the answer is a
    redirect its body is read and the request it leads to is sent through
    the same adapter, with the retries of the policy anew. [redirects_left]
    is how many redirects may still be followed; one more raises
    [TooManyRedirects]. The result carries the attempts made in all. *)
Fixpoint Session_send (a : HTTPAdapter) (max_redirects redirects_left : nat)
    (method : pystr) (srv : server) : (exn + Response) * nat :=
  match srv with
  | Unsent e => (inl e, 0%nat)
  | Sent pool path attempts =>
    match HTTPAdapter_send a method pool path attempts with
    | (inl e, made) => (inl e, made)
    | (inr (Final r), made) => (inr r, made)
    | (inr (Elsewhere status unread onward), made) =>
      match unread with
      | Some e => (inl e, made)
      | None =>
        match redirects_left with
        | O =>
          (inl (Requests TooManyRedirects
                  (str "Exceeded " ++ format_int (Z.of_nat max_redirects)
                   ++ str " redirects.")), made)
        | S fewer =>
          let (r, more) :=
            Session_send a max_redirects fewer (rebuild_method status method)
              onward in
          (r, (made + more)%nat)
        end
      end
    end
  end.

(** A session, seen through the one method the program calls:
    [session.post(url, json=data, timeout=10, stream=True)]. *)
Record Session : Type := {
  post : pystr -> dict json -> exn + Response
}.

(* ===================================================================== *)
(** * The process environment and the working directory *)
(* ===================================================================== *)

(** [os.environ] *)
Class Environ : Type := os_environ : dict pystr.

(** A process started with neither [OLLAMA_URL] nor [MODEL_NAME] set. *)
Definition bare_environ : Environ := [].

(** [os.getenv(name, default)] *)
Definition os_getenv {environ : Environ} (name default : pystr) : pystr :=
  dict_get_default os_environ name default.

(** What opening a path for reading in text mode and reading it whole
    gives. *)
Inductive file : Type :=
| Absent
| Unreadable (name : string)
| Undecodable
| Text (content : pystr).

Definition read_text (f : file) : exn + pystr :=
  match f with
  | Absent => inl FileNotFoundError
  | Unreadable name => inl (OSError name)
  | Undecodable => inl UnicodeDecodeError
  | Text content => inr content
  end.

(** [with open(path, 'r') as f: json.load(f)] *)
Definition json_load {decoder : Json} (f : file) : exn + json :=
  match read_text f with
  | inl e => inl e
  | inr content => json_loads content
  end.

(* ===================================================================== *)
(** * main.py *)
(* ===================================================================== *)

Local Open Scope py_scope.

Section Program.

Context {environ : Environ} {decoder : Json}.

Definition OLLAMA_URL : pystr :=
  os_getenv (str "OLLAMA_URL") (str "http://localhost:11434/api/generate").

Definition MODEL_NAME : pystr :=
  os_getenv (str "MODEL_NAME") (str "mistral").

Definition SYLLABUS_FILE : pystr := str "syllabus.json".

(** The working directory is [cwd], from a path to the file there. *)
Definition load_syllabus_data (cwd : pystr -> file) : py json :=
  try_except
    (call (json_load (cwd SYLLABUS_FILE)))
    (fun e =>
       match e with
       | FileNotFoundError =>
         Some (logging_error (File_not_found SYLLABUS_FILE) ;;
               ret (JDict []))
       | JSONDecodeError json_err =>
         Some (logging_error
                 (JSON_decode_error_for_file SYLLABUS_FILE json_err) ;;
               ret (JDict []))
       | _ => None
       end).

Definition create_request_data (prompt : pystr) (syllabus_data : json)
  : dict json :=
  let data :=
    dict_set (dict_set [] (str "model") (JStr MODEL_NAME))
             (str "prompt") (JStr prompt) in
  if truthy syllabus_data
  then dict_set data (str "syllabus") syllabus_data
  else data.

(** How one turn of the loop over the lines ends. *)
Inductive control : Set := Next | Break.

(** The body of [for line in response.iter_lines():]. The only call in
    the inner [try] that raises [JSONDecodeError] is [json.loads], which
    runs before [full_response] is touched, so the handler resumes with
    the text as it was when the turn began. *)
Definition line_body (full_response : pystr) (line : pybytes)
  : py (control * pystr) :=
  match line with
  | [] => ret (Next, full_response)
  | _ :: _ =>
    try_except
      (decoded_line <-
         call (match bytes_decode line with
               | Some s => inr s
               | None => inl UnicodeDecodeError
               end) ;;
       logging_debug (Decoded_line decoded_line) ;;
       json_obj <- call (json_loads decoded_line) ;;
       fragment <- call (py_get json_obj (str "response") (JStr [])) ;;
       full_response <- call (str_iadd full_response fragment) ;;
       done <- call (py_get json_obj (str "done") (JBool false)) ;;
       if truthy done then ret (Break, full_response)
       else ret (Next, full_response))
      (fun e =>
         match e with
         | JSONDecodeError json_err =>
           Some (logging_error (JSON_decode_error_for_line line json_err) ;;
                 ret (Next, full_response))
         | _ => None
         end)
  end.

Fixpoint for_line_in (full_response : pystr) (rest : list pybytes)
    (stream_error : option exn) : py pystr :=
  match rest with
  | [] =>
    match stream_error with
    | Some e => raise e
    | None => ret full_response
    end
  | line :: rest' =>
    turn <- line_body full_response line ;;
    match turn with
    | (Break, full_response') => ret full_response'
    | (Next, full_response') => for_line_in full_response' rest' stream_error
    end
  end.

Definition make_request (url : pystr) (data : dict json) (session : Session)
  : py (dict pystr) :=
  try_except
    (response <- call (post session url data) ;;
     call (raise_for_status response) ;;
     full_response <-
       for_line_in [] (lines response) (stream_error response) ;;
     ret (dict_set [] (str "text") (strip full_response)))
    (fun e =>
       if isinstance e HTTPError then
         Some (logging_error (HTTP_error_occurred (exn_str e)) ;;
               ret (dict_set [] (str "error")
                      (str "HTTP error: " ++ exn_str e)))
       else if isinstance e ConnectionError then
         Some (logging_error (Connection_error_occurred (exn_str e)) ;;
               ret (dict_set [] (str "error")
                      (str "Connection error. Please check if the Ollama server is running.")))
       else if isinstance e Timeout then
         Some (logging_error (Timeout_error_occurred (exn_str e)) ;;
               ret (dict_set [] (str "error")
                      (str "The request timed out. Please try again later.")))
       else if isinstance e RequestException then
         Some (logging_error (Request_exception_occurred (exn_str e)) ;;
               ret (dict_set [] (str "error")
                      (str "An unexpected error occurred.")))
       else None).

Definition chat_with_gpt (prompt : pystr) (syllabus_data : json)
    (session : Session) : py pystr :=
  let data := create_request_data prompt syllabus_data in
  response_data <- make_request OLLAMA_URL data session ;;
  match dict_get response_data (str "error") with
  | Some error => ret (str "An error occurred: " ++ error)
  | None =>
    ret (strip (dict_get_default response_data (str "text")
                  (str "No response text found.")))
  end.

End Program.

(** The session is built for a network: [net url data] is what a request
    for [url] with the JSON payload [data] meets there, which is [Unsent]
    when [url] or [data] cannot make a request. One adapter carries the
    retry policy and is mounted for both [http://] and [https://]. *)
Definition session_retries : Retry := {|
  total := 5;
  backoff_factor := 1;
  status_forcelist := [429; 500; 502; 503; 504]%Z;
  allowed_methods := [str "POST"];
  raise_on_status := true;
  respect_retry_after_header := true
|}.

Definition session_adapter : HTTPAdapter := {| max_retries := session_retries |}.

Definition setup_session (net : pystr -> dict json -> server) : Session := {|
  post := fun url data =>
    fst (Session_send session_adapter DEFAULT_REDIRECT_LIMIT
           DEFAULT_REDIRECT_LIMIT (str "POST") (net url data))
|}.

(** The number of attempts a [post] through that session makes. *)
Definition post_attempts (srv : server) : nat :=
  snd (Session_send session_adapter DEFAULT_REDIRECT_LIMIT
         DEFAULT_REDIRECT_LIMIT (str "POST") srv).

(* ===================================================================== *)
(** * What a line of the stream carries *)
(* ===================================================================== *)

Section Lines.

Context {decoder : Json}.

(** The fragment of a line: the object that its text decodes to. *)
Definition fragment (line : pybytes) : option (dict json) :=
  match bytes_decode line with
  | Some decoded_line =>
    match json_loads decoded_line with
    | inr (JDict items) => Some items
    | _ => None
    end
  | None => None
  end.

(** The text of a fragment: its [response] entry, the empty string when
    there is none; [None] when the entry is not a string. *)
Definition fragment_text (items : dict json) : option pystr :=
  match dict_get_default items (str "response") (JStr []) with
  | JStr text => Some text
  | _ => None
  end.

(** Whether a fragment ends the stream: its [done] entry as a condition,
    false when there is none. *)
Definition fragment_done (items : dict json) : bool :=
  truthy (dict_get_default items (str "done") (JBool false)).

(** A malformed line: a line that is not empty and whose text the JSON
    decoder rejects with [JSONDecodeError], the one exception that the loop
    handles. *)
Definition malformed (line : pybytes) : bool :=
  match line with
  | [] => false
  | _ :: _ =>
    match bytes_decode line with
    | Some decoded_line =>
      match json_loads decoded_line with
      | inl (JSONDecodeError _) => true
      | _ => false
      end
    | None => false
    end
  end.

(** What a line adds to the accumulated text. *)
Definition line_text (line : pybytes) : pystr :=
  match line with
  | [] => []
  | _ :: _ =>
    match fragment line with
    | Some items =>
      match fragment_text items with Some text => text | None => [] end
    | None => []
    end
  end.

(** A line that a well-formed stream may hold before its end: an empty
    line, a malformed line, or a fragment with a string for text that does
    not end the stream. *)
Definition passes (line : pybytes) : Prop :=
  line = [] \/ malformed line = true \/
  exists items text,
    fragment line = Some items /\ fragment_text items = Some text /\
    fragment_done items = false.

(** The texts that the log reports as decoded, in order. *)
Definition decoded_lines (lg : list log_record) : list pystr :=
  flat_map (fun r => match r with
                     | (DEBUG, Decoded_line decoded_line) => [decoded_line]
                     | _ => []
                     end) lg.

(** The texts of the lines of a body that are not empty, in order. *)
Definition texts (body : list pybytes) : list pystr :=
  flat_map (fun line => match line with
                        | [] => []
                        | _ :: _ =>
                          match bytes_decode line with
                          | Some decoded_line => [decoded_line]
                          | None => []
                          end
                        end) body.

End Lines.

(** A response with the malformed lines taken out of its body. *)
Definition without_malformed {decoder : Json} (r : Response) : Response := {|
  status_code := status_code r;
  reason := reason r;
  url := url r;
  lines := filter (fun line => negb (malformed line)) (lines r);
  stream_error := stream_error r
|}.

(** The lines that the loop reads: the lines of the body up to and with the
    first one that ends the loop, with [break] or with an exception; all of
    them when no line does. *)
Fixpoint lines_read {decoder : Json} (full_response : pystr)
    (rest : list pybytes) : list pybytes :=
  match rest with
  | [] => []
  | line :: rest' =>
    line ::
    match result (line_body full_response line) with
    | inr (Next, full_response') => lines_read full_response' rest'
    | _ => []
    end
  end.

(** The exception [e] is raised while [make_request] performs the request:
    by [post], by [raise_for_status], or while the body is read. *)
Definition raised_during {decoder : Json} (session : Session)
    (url : pystr) (data : dict json) (e : exn) : Prop :=
  post session url data = inl e \/
  exists response,
    post session url data = inr response /\
    (raise_for_status response = inl e \/
     (raise_for_status response = inr tt /\
      result (for_line_in [] (lines response) (stream_error response)) = inl e)).

(** The message each class of [requests.exceptions] is reported with. *)
Definition reported (cls : requests_class) (detail : pystr) : pystr :=
  match cls with
  | HTTPError => str "HTTP error: " ++ detail
  | ConnectionError | ProxyError | SSLError | ConnectTimeout =>
    str "Connection error. Please check if the Ollama server is running."
  | Timeout | ReadTimeout =>
    str "The request timed out. Please try again later."
  | _ => str "An unexpected error occurred."
  end.

(** The pool and the path of the default address. *)
Definition local_pool : pystr :=
  str "HTTPConnectionPool(host='localhost', port=11434)".

Definition local_path : pystr := str "/api/generate".

(** A server that answers 503 to the first [n] attempts and 200, with the
    given body, from then on. *)
Definition unavailable_then_ok (n : nat) (body : list pybytes) : server :=
  Sent local_pool local_path (fun i =>
    Answered {| status_code := if (i <? n)%nat then 503%Z else 200%Z;
                reason := if (i <? n)%nat then str "Service Unavailable"
                          else str "OK";
                url := str "http://localhost:11434/api/generate";
                lines := if (i <? n)%nat then [] else body;
                stream_error := None |} false).

(** A server that answers with [n] redirects in a row, each to the next,
    and then behaves as [final]. *)
Fixpoint redirecting (n : nat) (status : redirect_status) (final : server)
  : server :=
  match n with
  | O => final
  | S n =>
    Sent local_pool local_path (fun _ =>
      Redirected status None (redirecting n status final))
  end.

(** A session whose [post] gets a 200 response with the given body. *)
Definition answering (body : list pybytes) : Session := {|
  post := fun url _ =>
    inr {| status_code := 200%Z; reason := str "OK"; url := url;
           lines := body; stream_error := None |}
|}.

(* ===================================================================== *)
(** * Sample streams and sessions *)
(* ===================================================================== *)

Module Samples.

Definition endpoint : pystr := str "http://localhost:11434/api/generate".

Definition run (body : list pybytes) : exn + dict pystr :=
  result (@make_request reference_json endpoint [] (answering body)).

Definition ok_response (body : list pybytes) : Response :=
  {| status_code := 200%Z; reason := str "OK"; url := endpoint;
     lines := body; stream_error := None |}.

(** The three lines of the example in the specification, keyed [text]. *)
Definition text_keyed : list pybytes :=
  [ json_bytes "{'text':'A','done':false}";
    json_bytes "{'text':'B','done':true}";
    json_bytes "{'text':'C','done':false}" ].

(** The same three lines keyed [response], as the server sends them. *)
Definition response_keyed : list pybytes :=
  [ json_bytes "{'response':'A','done':false}";
    json_bytes "{'response':'B','done':true}";
    json_bytes "{'response':'C','done':false}" ].

(** Two fragments that both say they are the last. *)
Definition done_twice : list pybytes :=
  [ json_bytes "{'response':'A','done':true}";
    json_bytes "{'response':'B','done':true}" ].

(** A stream with white space at its ends, an empty line and a malformed
    line in the middle. *)
Definition noisy : list pybytes :=
  [ json_bytes "{'response':' Hello','done':false}";
    [];
    json_bytes "{'response': oops";
    json_bytes "{'response':', world ','done':true}" ].

(** A stream that ends without a [done]. *)
Definition unfinished : list pybytes :=
  [ json_bytes "{'response':'par'}";
    json_bytes "not json";
    json_bytes "{'response':'tial ','done':false}" ].

(** A line of a thousand opening brackets: arrays nested deeper than the
    decoder goes. *)
Definition deeply_nested : pybytes := repeat x5b 1000.


End Samples.

(* ===================================================================== *)
(** * The interactive loop *)
(* ===================================================================== *)

(** [str.lower()]: the case mapping of the Unicode database is a parameter;
    [ascii_lower] is the one used to run examples, on ASCII text. *)
Class Lowercase : Type := str_lower : pystr -> pystr.

Definition ascii_lower : Lowercase :=
  map (fun c => if between 65 90 c then c + 32 else c).

(** [os.name] *)
Class Platform : Type := os_name : pystr.

(** What the user does at a prompt: types a line and presses return, or
    presses the interrupt key. When nothing is left, the input is at its
    end. *)
Inductive keyboard : Type :=
| Typed (line : pystr)
| Interrupt.

(** What the process does to the world, in order. *)
Inductive effect : Type :=
| System (command : pystr)
| Stdout (text : pystr)
| Logged (r : log_record)
| Session_close.

(** What [main] can be left with: an exception of the request path, or the
    [EOFError] of [input] at the end of the input. *)
Inductive raised : Type :=
| Exception (e : exn)
| EOFError.

(** How the [while] loop ends: by [break], by [KeyboardInterrupt], or by
    another exception. *)
Inductive ending : Type :=
| Left_loop
| Interrupted
| Raised (e : raised).

(** [print(text)] *)
Definition print (text : pystr) : effect := Stdout (text ++ [10]).

(** [print(a, b, c)] *)
Definition print3 (a b c : pystr) : effect :=
  Stdout (a ++ [32] ++ b ++ [32] ++ c ++ [10]).

(** What [input("You: ")] writes before it reads. *)
Definition prompt : effect := Stdout (str "You: ").

Section Main.

Context {environ : Environ} {decoder : Json} {lowercase : Lowercase}
        {platform : Platform}.

Definition clear_terminal : list effect :=
  if str_eqb os_name (str "nt") then [System (str "cls")] else [].

(** [user_input.lower() in ["quit", "exit", "bye"]] *)
Definition leaves (user_input : pystr) : bool :=
  existsb (str_eqb (str_lower user_input))
          [str "quit"; str "exit"; str "bye"].

(** The [while True:] loop of [main]. The session is the one of
    [setup_session]; [net n] is the network that the request number [n] of
    the process meets, and [asked] counts the requests made so far. An
    interrupt is delivered while the process waits at the prompt, and
    [print] writes what it is given: a terminal that cannot encode an
    answer, and an interrupt in the middle of a request, are not
    represented. *)
Fixpoint conversation (syllabus_data : json)
    (net : nat -> pystr -> dict json -> server)
    (asked : nat) (stdin : list keyboard) : list effect * ending :=
  match stdin with
  | [] => ([prompt], Raised EOFError)
  | Interrupt :: _ => ([prompt], Interrupted)
  | Typed line :: rest =>
    let user_input := strip line in
    if leaves user_input then ([prompt; print (str "Goodbye!")], Left_loop)
    else
      match user_input with
      | [] =>
        let (after, how) := conversation syllabus_data net asked rest in
        (prompt :: print (str "Please enter a valid input.") :: after, how)
      | _ :: _ =>
        match chat_with_gpt user_input syllabus_data
                (setup_session (net asked)) with
        | (inl e, lg) => (prompt :: map Logged lg, Raised (Exception e))
        | (inr response, lg) =>
          let (after, how) :=
            conversation syllabus_data net (S asked) rest in
          (prompt :: map Logged lg
             ++ print3 ([10] ++ str "EduBot:") response [10] :: after,
           how)
        end
      end
  end.

(** [main()]: the effects of the run and the exception it ends with, if
    any. *)
Definition main (cwd : pystr -> file)
    (net : nat -> pystr -> dict json -> server) (stdin : list keyboard)
  : list effect * option raised :=
  let banner :=
    clear_terminal
    ++ [print (str "Welcome to the EduBot! Type 'quit', 'exit', or 'bye' to end the conversation.")] in
  match load_syllabus_data cwd with
  | (inl e, lg) => (banner ++ map Logged lg, Some (Exception e))
  | (inr syllabus_data, lg) =>
    let (talk, how) := conversation syllabus_data net 0 stdin in
    match how with
    | Left_loop =>
      (banner ++ map Logged lg ++ talk ++ [Session_close], None)
    | Interrupted =>
      (banner ++ map Logged lg ++ talk
         ++ [print ([10] ++ str "Conversation ended by user."); Session_close],
       None)
    | Raised e =>
      (banner ++ map Logged lg ++ talk ++ [Session_close], Some e)
    end
  end.

End Main.

(** ** What the properties of the loop speak of *)

(** The lines of the stream that the log reports as malformed, in order. *)
Definition rejected_lines (lg : list log_record) : list pybytes :=
  flat_map (fun r => match r with
                     | (ERROR, JSON_decode_error_for_line line _) => [line]
                     | _ => []
                     end) lg.

(** A response with another status. *)
Definition with_status (status : Z) (r : Response) : Response := {|
  status_code := status;
  reason := reason r;
  url := url r;
  lines := lines r;
  stream_error := stream_error r
|}.

(** A session whose [post] gets the given response. *)
Definition receiving (r : Response) : Session :=
  {| post := fun _ _ => inr r |}.

(** The prompt and the notice for a blank line: what the loop writes
    without being asked anything. *)
Definition is_chatter (e : effect) : bool :=
  match e with
  | Stdout text =>
    str_eqb text (str "You: ")
    || str_eqb text (str "Please enter a valid input." ++ [10])
  | _ => false
  end.

(** A line that is blank once stripped. *)
Definition is_blank (k : keyboard) : bool :=
  match k with
  | Typed line => match strip line with [] => true | _ :: _ => false end
  | Interrupt => false
  end.

Definition is_close (e : effect) : bool :=
  match e with Session_close => true | _ => false end.

Definition is_system (e : effect) : bool :=
  match e with System _ => true | _ => false end.

(** Sample dialogues. *)
Module Dialogue.

(** A network that answers every request with one fragment. *)
Definition polite (n : nat) (url : pystr) (data : dict json) : server :=
  unavailable_then_ok 0 [json_bytes "{'response':' Hello! ','done':true}"].

(** A network whose server is down. *)
Definition down (n : nat) (url : pystr) (data : dict json) : server :=
  Sent local_pool local_path (fun _ =>
    Failed NewConnectionError
      (str "<HTTPConnection>: Failed to establish a new connection: [Errno 111] Connection refused")
      (str "NewConnectionError('<HTTPConnection>: Failed to establish a new connection: [Errno 111] Connection refused')")).

(** A network that answers the first request and then sends a line that is
    not UTF-8. *)
Definition garbling (n : nat) (url : pystr) (data : dict json) : server :=
  match n with
  | O => unavailable_then_ok 0 [json_bytes "{'response':'Hi','done':true}"]
  | S _ => unavailable_then_ok 0 [[xff]]
  end.

(** A network that is down for an empty prompt and polite otherwise. *)
Definition picky (n : nat) (url : pystr) (data : dict json) : server :=
  match dict_get data (str "prompt") with
  | Some (JStr []) => down n url data
  | _ => polite n url data
  end.

(** A response that says the address is wrong. *)
Definition not_found : Response :=
  {| status_code := 404%Z; reason := str "Not Found";
     url := str "http://localhost:11434/api/generat";
     lines := [json_bytes "{'error':'no such page'}"];
     stream_error := None |}.

(** A response whose connection breaks after the first fragment. *)
Definition cut_short : Response :=
  {| status_code := 200%Z; reason := str "OK";
     url := str "http://localhost:11434/api/generate";
     lines := [json_bytes "{'response':'par'}"];
     stream_error :=
       Some (Requests ChunkedEncodingError (str "Connection broken")) |}.

(** A response with a line that is JSON but not an object. *)
Definition with_a_list : Response :=
  {| status_code := 200%Z; reason := str "OK";
     url := str "http://localhost:11434/api/generate";
     lines := [json_bytes "{'response':'Hi'}"; json_bytes "[1]"];
     stream_error := None |}.



(** A server that never answers in time. *)
Definition silent : server :=
  Sent local_pool (str "/api/chat") (fun _ =>
    Failed ReadTimeoutError
      (str "HTTPConnectionPool(host='localhost', port=11434): Read timed out. (read timeout=10)")
      (str "ReadTimeoutError('HTTPConnectionPool(host='localhost', port=11434): Read timed out. (read timeout=10)')")).

(** A network whose server has moved, to one that never answers in time. *)
Definition moved (n : nat) (url : pystr) (data : dict json) : server :=
  Sent local_pool local_path (fun _ => Redirected Found None silent).

(** A network whose server redirects to itself without end. *)
Definition circular (n : nat) (url : pystr) (data : dict json) : server :=
  redirecting 40 Temporary_Redirect silent.

Definition no_file (path : pystr) : file := Absent.

Definition locked_file (path : pystr) : file := Unreadable "PermissionError".

Definition posix : Platform := str "posix".

Definition windows : Platform := str "nt".

Definition run (platform : Platform) (cwd : pystr -> file)
    (net : nat -> pystr -> dict json -> server) (stdin : list keyboard)
  : list effect * option raised :=
  @main bare_environ reference_json ascii_lower platform cwd net stdin.

End Dialogue.

(* ===================================================================== *)
(** * Strings and dictionaries: basic facts *)
(* ===================================================================== *)

Lemma str_eqb_refl (s : pystr) : str_eqb s s = true.
Proof.
  induction s as [|c s IH]; simpl; [reflexivity|].
  now rewrite N.eqb_refl, IH.
Qed.

Lemma dict_get_default_single {V} (k : pystr) (v default : V) :
  dict_get_default [(k, v)] k default = v.
Proof. unfold dict_get_default; simpl. now rewrite str_eqb_refl. Qed.

(** ** [strip] leaves no white space at either end *)

Lemma lstrip_head (s : pystr) c s' : lstrip s = c :: s' -> isspace c = false.
Proof.
  induction s as [|x s IH]; simpl; [discriminate|].
  destruct (isspace x) eqn:E; [exact IH|].
  intros H; injection H as -> _; exact E.
Qed.

Lemma lstrip_split (s : pystr) :
  exists blank, s = blank ++ lstrip s /\ Forall (fun c => isspace c = true) blank.
Proof.
  induction s as [|x s (blank & Hs & Hb)]; simpl.
  - exists []; split; [reflexivity | constructor].
  - destruct (isspace x) eqn:E.
    + exists (x :: blank); split; [simpl; now f_equal | now constructor].
    + exists []; split; [reflexivity | constructor].
Qed.

Lemma lstrip_fixed (s : pystr) :
  (forall c s', s = c :: s' -> isspace c = false) -> lstrip s = s.
Proof.
  destruct s as [|c s]; simpl; [reflexivity|].
  intros H; now rewrite (H c s eq_refl).
Qed.

Lemma rstrip_last (s : pystr) c s' : rstrip s = s' ++ [c] -> isspace c = false.
Proof.
  unfold rstrip; intros H.
  apply (f_equal (@rev N)) in H.
  rewrite rev_involutive, rev_app_distr in H; simpl in H.
  eapply lstrip_head; exact H.
Qed.

Lemma rstrip_split (s : pystr) :
  exists blank, s = rstrip s ++ blank /\ Forall (fun c => isspace c = true) blank.
Proof.
  destruct (lstrip_split (rev s)) as (blank & Hs & Hb).
  exists (rev blank); split.
  - unfold rstrip. rewrite <- rev_app_distr, <- Hs. now rewrite rev_involutive.
  - apply Forall_rev; exact Hb.
Qed.

Lemma rstrip_head (s : pystr) c s' :
  (forall x t, s = x :: t -> isspace x = false) ->
  rstrip s = c :: s' -> isspace c = false.
Proof.
  intros Hhead H.
  destruct (rstrip_split s) as (blank & Hs & _).
  rewrite H in Hs; simpl in Hs. eapply Hhead; exact Hs.
Qed.

Lemma strip_trimmed (s : pystr) : trimmed (strip s).
Proof.
  split; intros c s' H.
  - eapply rstrip_head; [|exact H].
    intros x t Hx; eapply lstrip_head; exact Hx.
  - eapply rstrip_last; exact H.
Qed.

Lemma trimmed_strip (s : pystr) : trimmed s -> strip s = s.
Proof.
  intros [Hhead Hlast]. unfold strip.
  rewrite lstrip_fixed by exact Hhead. unfold rstrip.
  rewrite lstrip_fixed; [apply rev_involutive|].
  intros c s' H. apply (Hlast c (rev s')).
  apply (f_equal (@rev N)) in H. rewrite rev_involutive in H. exact H.
Qed.

Lemma strip_idempotent (s : pystr) : strip (strip s) = strip s.
Proof. apply trimmed_strip, strip_trimmed. Qed.

(* ===================================================================== *)
(** * The loop over the lines *)
(* ===================================================================== *)

Lemma result_bind {A B} (m : py A) (k : A -> py B) :
  result (bind m k) =
  match result m with
  | inl e => inl e
  | inr a => result (k a)
  end.
Proof.
  destruct m as [[e|a] lg]; simpl; [reflexivity|].
  destruct (k a); reflexivity.
Qed.

Lemma logged_bind {A B} (m : py A) (k : A -> py B) :
  logged (bind m k) =
  match result m with
  | inl _ => logged m
  | inr a => logged m ++ logged (k a)
  end.
Proof.
  destruct m as [[e|a] lg]; simpl; [reflexivity|].
  destruct (k a); reflexivity.
Qed.

Section Loop.

Context {decoder : Json}.

#[local] Arguments str : simpl never.
#[local] Arguments dict_get_default : simpl never.
#[local] Arguments bytes_decode : simpl never.
#[local] Arguments truthy : simpl never.

Ltac line_cases line :=
  unfold line_body, fragment, malformed, fragment_text, fragment_done in *;
  destruct line as [|b line];
  [ try reflexivity; try discriminate; try contradiction
  | destruct (bytes_decode (b :: line)) as [decoded|] eqn:Hdecoded;
    simpl in *;
    [destruct (json_loads decoded) as [[]|[]]; simpl in *|] ].

Lemma line_body_blank (acc : pystr) : line_body acc [] = ret (Next, acc).
Proof. reflexivity. Qed.

Lemma line_body_undecodable (acc : pystr) (line : pybytes) :
  line <> [] -> bytes_decode line = None ->
  line_body acc line = raise UnicodeDecodeError.
Proof.
  intros Hne Hdec. destruct line as [|b line]; [contradiction|].
  unfold line_body. rewrite Hdec. reflexivity.
Qed.

Lemma line_body_malformed (acc : pystr) (line : pybytes) :
  malformed line = true -> result (line_body acc line) = inr (Next, acc).
Proof. intros H. line_cases line; try discriminate; reflexivity. Qed.

Lemma line_body_malformed_log (acc : pystr) (line : pybytes) :
  line <> [] -> malformed line = true ->
  exists decoded_line json_err,
    line_body acc line =
    (inr (Next, acc),
     [(DEBUG, Decoded_line decoded_line);
      (ERROR, JSON_decode_error_for_line line json_err)]).
Proof.
  intros Hne H. line_cases line; try discriminate; try contradiction.
  eexists _, _; reflexivity.
Qed.

Lemma line_body_fragment (acc : pystr) (line : pybytes) items text :
  line <> [] -> fragment line = Some items ->
  fragment_text items = Some text ->
  result (line_body acc line) =
  inr (if fragment_done items then Break else Next, acc ++ text).
Proof.
  intros Hne Hf Ht. line_cases line; try discriminate; try contradiction.
  injection Hf as ->.
  destruct (dict_get_default items (str "response") (JStr [])); try discriminate.
  injection Ht as ->. simpl.
  destruct (truthy (dict_get_default items (str "done") (JBool false)));
    reflexivity.
Qed.

Lemma line_body_break (acc acc' : pystr) (line : pybytes) :
  result (line_body acc line) = inr (Break, acc') ->
  exists items,
    line <> [] /\ fragment line = Some items /\ fragment_done items = true.
Proof.
  intros H. line_cases line; try discriminate.
  destruct (dict_get_default items (str "response") (JStr []));
    simpl in H; try discriminate.
  destruct (truthy (dict_get_default items (str "done") (JBool false))) eqn:E;
    simpl in H; try discriminate.
  exists items; repeat split; [discriminate | exact E].
Qed.

Lemma line_body_passes (acc : pystr) (line : pybytes) :
  passes line -> result (line_body acc line) = inr (Next, acc ++ line_text line).
Proof.
  intros [-> | [Hm | (items & text & Hf & Ht & Hd)]].
  - simpl. now rewrite app_nil_r.
  - rewrite (line_body_malformed acc line Hm).
    assert (line_text line = []) as ->; [|now rewrite app_nil_r].
    unfold line_text. line_cases line; try discriminate; reflexivity.
  - destruct line as [|b line]; [simpl; now rewrite app_nil_r|].
    rewrite (@line_body_fragment acc (b :: line) items text);
      try assumption; try discriminate.
    rewrite Hd. unfold line_text. now rewrite Hf, Ht.
Qed.

Lemma for_line_in_cons (acc : pystr) line rest err :
  result (for_line_in acc (line :: rest) err) =
  match result (line_body acc line) with
  | inl e => inl e
  | inr (Break, acc') => inr acc'
  | inr (Next, acc') => result (for_line_in acc' rest err)
  end.
Proof.
  simpl. rewrite result_bind.
  destruct (result (line_body acc line)) as [e|[[] acc']]; reflexivity.
Qed.

(** Lines that are consumed without ending the loop can be cut off the
    front of the stream. *)
Lemma for_line_in_app (before rest : list pybytes) err (acc0 acc : pystr) :
  (forall line items,
      In line before -> line <> [] -> fragment line = Some items ->
      fragment_done items = false) ->
  result (for_line_in acc0 before None) = inr acc ->
  result (for_line_in acc0 (before ++ rest) err) =
  result (for_line_in acc rest err).
Proof.
  revert acc0. induction before as [|line before IH]; intros acc0 Hnd Hrun.
  - simpl in Hrun. injection Hrun as ->. reflexivity.
  - rewrite <- app_comm_cons. rewrite for_line_in_cons in *.
    destruct (result (line_body acc0 line)) as [e|[[] acc1]] eqn:E.
    + discriminate.
    + apply IH; [|exact Hrun].
      intros l items Hin; apply Hnd; now right.
    + destruct (line_body_break _ _ E) as (items & Hne & Hf & Hd).
      rewrite (Hnd line items (or_introl eq_refl) Hne Hf) in Hd. discriminate.
Qed.

Lemma for_line_in_passes (ls : list pybytes) (acc : pystr) :
  Forall passes ls ->
  result (for_line_in acc ls None) = inr (acc ++ List.concat (map line_text ls)).
Proof.
  intros H; revert acc; induction H as [|line ls Hl _ IH]; intros acc.
  - simpl. now rewrite app_nil_r.
  - rewrite for_line_in_cons, (line_body_passes acc Hl), IH.
    simpl. now rewrite app_assoc.
Qed.

Lemma decoded_lines_app (lg lg' : list log_record) :
  decoded_lines (lg ++ lg') = decoded_lines lg ++ decoded_lines lg'.
Proof. unfold decoded_lines. apply flat_map_app. Qed.

Lemma line_body_passes_log (acc : pystr) (line : pybytes) :
  passes line ->
  decoded_lines (logged (line_body acc line)) = texts [line].
Proof.
  intros [-> | [Hm | (items & text & Hf & Ht & Hd)]]; [reflexivity| |].
  - line_cases line; try discriminate.
    unfold texts; simpl. now rewrite Hdecoded.
  - line_cases line; try discriminate.
    injection Hf as ->.
    destruct (dict_get_default items (str "response") (JStr []));
      try discriminate.
    simpl. rewrite Hd. unfold texts; simpl. now rewrite Hdecoded.
Qed.

Lemma for_line_in_passes_log (ls : list pybytes) (acc : pystr) :
  Forall passes ls ->
  decoded_lines (logged (for_line_in acc ls None)) = texts ls.
Proof.
  intros H; revert acc; induction H as [|line ls Hl _ IH]; intros acc.
  - reflexivity.
  - simpl for_line_in. rewrite logged_bind, (line_body_passes acc Hl).
    rewrite decoded_lines_app, (line_body_passes_log acc Hl), IH.
    change (line :: ls) with ([line] ++ ls).
    unfold texts. now rewrite flat_map_app.
Qed.

End Loop.

(* ===================================================================== *)
(** * [make_request] *)
(* ===================================================================== *)

Lemma result_try_except {A} (m : py A) (handler : exn -> option (py A)) :
  result (try_except m handler) =
  match result m with
  | inl e =>
    match handler e with
    | Some h => result h
    | None => inl e
    end
  | inr a => inr a
  end.
Proof.
  destruct m as [[e|a] lg]; simpl; [|reflexivity].
  destruct (handler e) as [[r lg']|]; reflexivity.
Qed.

Section Request.

Context {decoder : Json}.

(** What the [try] block of [make_request] comes to. *)
Lemma make_request_result (url : pystr) (data : dict json) (session : Session) :
  result (make_request url data session) =
  match
    match post session url data with
    | inl e => inl e
    | inr response =>
      match raise_for_status response with
      | inl e => inl e
      | inr _ =>
        match result (for_line_in [] (lines response) (stream_error response)) with
        | inl e => inl e
        | inr full_response => inr [(str "text", strip full_response)]
        end
      end
    end
  with
  | inl (Requests cls detail) => inr [(str "error", reported cls detail)]
  | inl e => inl e
  | inr response_data => inr response_data
  end.
Proof.
  unfold make_request. rewrite result_try_except, result_bind.
  unfold call at 1; unfold result at 1; simpl fst.
  destruct (post session url data) as [e|response].
  - destruct e as [| | | | | | | |cls detail]; try reflexivity.
    destruct cls; reflexivity.
  - rewrite result_bind. unfold call at 1; unfold result at 1; simpl fst.
    destruct (raise_for_status response) as [e|[]].
    + destruct e as [| | | | | | | |cls detail]; try reflexivity.
      destruct cls; reflexivity.
    + rewrite result_bind.
      destruct (result (for_line_in [] (lines response) (stream_error response)))
        as [e|full_response]; [|reflexivity].
      destruct e as [| | | | | | | |cls detail]; try reflexivity.
      destruct cls; reflexivity.
Qed.

Lemma make_request_text url data session response full_response :
  post session url data = inr response ->
  raise_for_status response = inr tt ->
  result (for_line_in [] (lines response) (stream_error response))
  = inr full_response ->
  result (make_request url data session)
  = inr [(str "text", strip full_response)].
Proof.
  intros Hpost Hstatus Hloop.
  now rewrite make_request_result, Hpost, Hstatus, Hloop.
Qed.

Lemma make_request_text_log url data session response full_response :
  post session url data = inr response ->
  raise_for_status response = inr tt ->
  result (for_line_in [] (lines response) (stream_error response))
  = inr full_response ->
  logged (make_request url data session)
  = logged (for_line_in [] (lines response) (stream_error response)).
Proof.
  intros Hpost Hstatus Hloop. unfold make_request.
  rewrite Hpost. cbn [bind call]. rewrite Hstatus. cbn [bind call].
  destruct (for_line_in [] (lines response) (stream_error response))
    as [[e|full] lg]; [discriminate|].
  cbn [bind ret try_except logged snd app]. now rewrite app_nil_r.
Qed.

Lemma make_request_reports url data session cls detail :
  raised_during session url data (Requests cls detail) ->
  result (make_request url data session)
  = inr [(str "error", reported cls detail)].
Proof.
  rewrite make_request_result.
  intros [Hpost | (response & Hpost & [Hstatus | [Hstatus Hloop]])];
    rewrite Hpost; [reflexivity| |]; rewrite Hstatus; [reflexivity|].
  now rewrite Hloop.
Qed.

End Request.

(* ===================================================================== *)
(** * The retry policy of the session *)
(* ===================================================================== *)

Lemma urlopen_attempts (r : Retry) (method : pystr)
    (attempts : nat -> attempt) (total_now made : nat) :
  (made < snd (urlopen r method attempts total_now made)
   <= made + total_now + 1)%nat.
Proof.
  revert made; induction total_now as [|t IH]; intros made; simpl.
  - destruct (attempts made) as [resp h|status unread onward|e text repr].
    + destruct (is_retry r 0 method (status_code resp) h);
        [destruct (raise_on_status r)|]; simpl; lia.
    + simpl; lia.
    + destruct (is_read_error e && negb (is_method_retryable r method));
        simpl; lia.
  - destruct (attempts made) as [resp h|status unread onward|e text repr].
    + destruct (is_retry r (S t) method (status_code resp) h);
        [specialize (IH (S made))|simpl]; lia.
    + simpl; lia.
    + destruct (is_read_error e && negb (is_method_retryable r method));
        [simpl|specialize (IH (S made))]; lia.
Qed.

Lemma HTTPAdapter_send_attempts (method pool path : pystr)
    (attempts : nat -> attempt) :
  snd (HTTPAdapter_send session_adapter method pool path attempts)
  = snd (urlopen session_retries method attempts 5 0).
Proof.
  unfold HTTPAdapter_send. simpl max_retries. simpl total.
  destruct (urlopen session_retries method attempts 5 0); reflexivity.
Qed.

Lemma HTTPAdapter_send_bounds (method pool path : pystr)
    (attempts : nat -> attempt) :
  (1 <= snd (HTTPAdapter_send session_adapter method pool path attempts)
   <= 6)%nat.
Proof.
  rewrite HTTPAdapter_send_attempts.
  pose proof (urlopen_attempts session_retries method attempts 5 0). lia.
Qed.

(** Each request of a chain of redirects makes at most six attempts. *)
Lemma Session_send_attempts (max_redirects redirects_left : nat)
    (method : pystr) (srv : server) :
  (snd (Session_send session_adapter max_redirects redirects_left method srv)
   <= 6 * S redirects_left)%nat.
Proof.
  revert method srv.
  induction redirects_left as [|fewer IH]; intros method srv;
    destruct srv as [e|pool path attempts]; cbn [Session_send snd]; try lia;
    pose proof (HTTPAdapter_send_bounds method pool path attempts) as Hsix;
    destruct (HTTPAdapter_send session_adapter method pool path attempts)
      as [[e|[r|status [e|] onward]] made]; cbn [snd] in *; try lia.
  specialize (IH (rebuild_method status method) onward).
  destruct (Session_send session_adapter max_redirects fewer
              (rebuild_method status method) onward) as [r more].
  cbn [snd] in *. lia.
Qed.

(** Without a redirect among the attempts the adapter hands back a response
    or an exception. *)
Lemma urlopen_direct (r : Retry) (method : pystr)
    (attempts : nat -> attempt) (total_now made : nat) :
  (forall i, is_redirect (attempts i) = false) ->
  forall status unread onward,
    fst (urlopen r method attempts total_now made)
    <> Returned_redirect status unread onward.
Proof.
  intros Hdirect. revert made.
  induction total_now as [|t IH]; intros made status unread onward; simpl;
    specialize (Hdirect made);
    destruct (attempts made) as [resp h|status' unread' onward'|e text repr];
    try discriminate Hdirect.
  - destruct (is_retry r 0 method (status_code resp) h);
      [destruct (raise_on_status r)|]; simpl; discriminate.
  - destruct (is_read_error e && negb (is_method_retryable r method));
      simpl; discriminate.
  - destruct (is_retry r (S t) method (status_code resp) h);
      [apply IH | simpl; discriminate].
  - destruct (is_read_error e && negb (is_method_retryable r method));
      [simpl; discriminate | apply IH].
Qed.

(** A request that is not redirected is the business of the adapter
    alone. *)
Lemma Session_send_direct (a : HTTPAdapter)
    (max_redirects redirects_left : nat) (method pool path : pystr)
    (attempts : nat -> attempt) :
  (forall i, is_redirect (attempts i) = false) ->
  exists outcome : exn + Response,
    Session_send a max_redirects redirects_left method
      (Sent pool path attempts)
    = (outcome, snd (HTTPAdapter_send a method pool path attempts)) /\
    fst (HTTPAdapter_send a method pool path attempts)
    = match outcome with inl e => inl e | inr r => inr (Final r) end.
Proof.
  intros Hdirect.
  pose proof (@urlopen_direct (max_retries a) method attempts
                (total (max_retries a)) 0 Hdirect) as Hnone.
  destruct redirects_left; cbn [Session_send]; unfold HTTPAdapter_send in *;
    destruct (urlopen (max_retries a) method attempts (total (max_retries a)) 0)
      as [[resp|status unread onward|status|e repr|e text] made];
    cbn [fst snd] in *;
    try (exfalso; exact (Hnone status unread onward eq_refl));
    try (eexists (inr _); split; reflexivity);
    try (eexists (inl _); split; reflexivity);
    destruct e; (eexists (inl _); split; reflexivity).
Qed.

(** C1, as the claim words it, fails. A server answers 503 to six attempts
    in a row: the session makes six attempts, not five, and what [post]
    raises is [RetryError], not [HTTPError]. *)
Lemma six_503_in_a_row_take_six_attempts :
  post_attempts (unavailable_then_ok 6 []) = 6%nat /\
  ~ (post_attempts (unavailable_then_ok 6 []) <= 5)%nat /\
  forall url data detail,
    post (setup_session (fun _ _ => unavailable_then_ok 6 [])) url data
    <> inl (Requests HTTPError detail).
Proof.
  split; [reflexivity|]. split.
  - vm_compute. intros H. do 5 apply le_S_n in H. inversion H.
  - intros url data detail. vm_compute. discriminate.
Qed.

(** C1, amended. The policy of [setup_session] allows five retries, so each
    request that the session sends makes at most six attempts: the first one
    and up to five retries. A [post] that is not redirected makes between
    one and six attempts; a redirect is followed by a new request with six
    attempts of its own, and at most thirty redirects are followed, so no
    [post] makes more than 186 attempts; a request that cannot be prepared
    makes none. When the request for the address meets a server that
    answers 503 to at most five attempts and then 200, the [post] succeeds,
    on the attempt after the last 503. When it meets six 503s in a row the
    session gives up after exactly six attempts with [RetryError], whose
    text is that of the [MaxRetryError] of [urllib3], and [make_request]
    reports it with the message for unexpected errors. *)
Theorem post_makes_at_most_six_attempts_per_request :
  (forall method pool path attempts,
      (1 <= snd (HTTPAdapter_send session_adapter method pool path attempts)
       <= 6)%nat) /\
  (forall pool path attempts,
      (forall i, is_redirect (attempts i) = false) ->
      (1 <= post_attempts (Sent pool path attempts) <= 6)%nat) /\
  (forall srv : server, (post_attempts srv <= 6 * 31)%nat) /\
  (forall e, post_attempts (Unsent e) = 0%nat) /\
  (forall (decoder : Json) (net : pystr -> dict json -> server)
          url data body n,
      net url data = unavailable_then_ok n body ->
      (n <= 5)%nat ->
      post_attempts (net url data) = S n /\
      (exists response,
          post (setup_session net) url data = inr response /\
          status_code response = 200%Z /\ lines response = body) /\
      result (make_request url data (setup_session net))
      = result (make_request url data (answering body))) /\
  (forall (decoder : Json) (net : pystr -> dict json -> server)
          url data body n,
      net url data = unavailable_then_ok n body ->
      (6 <= n)%nat ->
      post_attempts (net url data) = 6%nat /\
      post (setup_session net) url data
      = inl (Requests RetryError
               (str "HTTPConnectionPool(host='localhost', port=11434): Max retries exceeded with url: /api/generate (Caused by ResponseError('too many 503 error responses'))")) /\
      result (make_request url data (setup_session net))
      = inr [(str "error", str "An unexpected error occurred.")]).
Proof.
  split; [|split; [|split; [|split; [|split]]]].
  - apply HTTPAdapter_send_bounds.
  - intros pool path attempts Hdirect. unfold post_attempts.
    destruct (@Session_send_direct session_adapter DEFAULT_REDIRECT_LIMIT
                DEFAULT_REDIRECT_LIMIT (str "POST") pool path attempts Hdirect)
      as (outcome & -> & _).
    apply HTTPAdapter_send_bounds.
  - intros srv. apply Session_send_attempts.
  - reflexivity.
  - intros decoder net url data body n Hnet Hn.
    rewrite make_request_result. unfold setup_session, post.
    rewrite Hnet.
    destruct n as [|[|[|[|[|[|n]]]]]]; try lia;
      (split; [reflexivity|]);
      (split; [eexists; repeat split|]);
      rewrite !make_request_result; reflexivity.
  - intros decoder net url data body n Hnet Hn.
    rewrite make_request_result. unfold setup_session, post.
    rewrite Hnet.
    destruct n as [|[|[|[|[|[|n]]]]]]; try lia.
    split; [reflexivity|]. split; reflexivity.
Qed.

(* ===================================================================== *)
(** * The request payload and the context file *)
(* ===================================================================== *)

Section Payload.

Context {environ : Environ}.

(** C7. [create_request_data] is a function of its arguments and the
    configured model name. Its result always holds the model under [model]
    and the prompt under [prompt]. It holds the context under [syllabus]
    exactly when the context counts as true, which for a mapping, a list or
    a string means that it is not empty. Nothing else is in the payload. *)
Theorem create_request_data_fields (prompt : pystr) (syllabus_data : json) :
  let data := create_request_data prompt syllabus_data in
  dict_get data (str "model") = Some (JStr MODEL_NAME) /\
  dict_get data (str "prompt") = Some (JStr prompt) /\
  dict_get data (str "syllabus")
  = (if truthy syllabus_data then Some syllabus_data else None) /\
  map fst data
  = (if truthy syllabus_data then [str "model"; str "prompt"; str "syllabus"]
     else [str "model"; str "prompt"]) /\
  (forall items,
      dict_contains (create_request_data prompt (JDict items)) (str "syllabus")
      = match items with [] => false | _ :: _ => true end) /\
  (forall items,
      dict_contains (create_request_data prompt (JList items)) (str "syllabus")
      = match items with [] => false | _ :: _ => true end) /\
  (forall text,
      dict_contains (create_request_data prompt (JStr text)) (str "syllabus")
      = match text with [] => false | _ :: _ => true end).
Proof.
  cbv zeta. unfold create_request_data.
  repeat split; try (destruct (truthy syllabus_data); reflexivity);
    intros [|x l]; reflexivity.
Qed.

End Payload.

Section Context_file.

Context {decoder : Json}.

(** X23. When the context file is absent, or holds text that the JSON
    decoder rejects with [JSONDecodeError], [load_syllabus_data] raises
    nothing: it returns the empty mapping and leaves one record in the log,
    at level ERROR. *)
Theorem load_syllabus_data_recovers (cwd : pystr -> file) :
  cwd SYLLABUS_FILE = Absent \/
  (exists content json_err,
      cwd SYLLABUS_FILE = Text content /\
      json_loads content = inl (JSONDecodeError json_err)) ->
  exists diagnostic,
    load_syllabus_data cwd = (inr (JDict []), [(ERROR, diagnostic)]).
Proof.
  unfold load_syllabus_data, json_load.
  intros [-> | (content & json_err & -> & Hbad)]; simpl.
  - eexists; reflexivity.
  - rewrite Hbad. simpl. eexists; reflexivity.
Qed.

(** C8 fails on the code. [load_syllabus_data] handles
    [FileNotFoundError] and [json.JSONDecodeError] and nothing else. A
    context file whose bytes are not text in the encoding it is opened with
    is malformed content too, and reading it raises [UnicodeDecodeError],
    which is neither; content that is nested deeper than the interpreter
    allows makes the decoder raise [RecursionError]. Both leave the
    function: no empty mapping is returned and nothing is logged. *)
Theorem load_syllabus_data_lets_errors_out (cwd : pystr -> file) :
  (cwd SYLLABUS_FILE = Undecodable ->
   load_syllabus_data cwd = (inl UnicodeDecodeError, [])) /\
  (forall content,
      cwd SYLLABUS_FILE = Text content ->
      json_loads content = inl RecursionError ->
      load_syllabus_data cwd = (inl RecursionError, [])).
Proof.
  unfold load_syllabus_data, json_load. split.
  - intros ->. reflexivity.
  - intros content -> Hdeep. simpl. rewrite Hdeep. reflexivity.
Qed.

End Context_file.

Lemma load_syllabus_data_lets_errors_out_witness :
  @load_syllabus_data reference_json (fun _ => Undecodable)
  = (inl UnicodeDecodeError, []).
Proof.
  apply (proj1 (@load_syllabus_data_lets_errors_out reference_json
                  (fun _ => Undecodable))).
  reflexivity.
Defined.

Lemma load_syllabus_data_recovers_witness :
  exists diagnostic,
    @load_syllabus_data reference_json (fun _ => Text (str "{oops"))
    = (inr (JDict []), [(ERROR, diagnostic)]).
Proof.
  apply (@load_syllabus_data_recovers reference_json).
  right. exists (str "{oops"), "Expecting property name enclosed in double quotes"%string.
  split; reflexivity.
Defined.

(* ===================================================================== *)
(** * The stream decoder *)
(* ===================================================================== *)

Section Stream.

Context {decoder : Json}.

Lemma for_line_in_without_malformed (ls : list pybytes) (acc : pystr) err :
  result (for_line_in acc (filter (fun line => negb (malformed line)) ls) err)
  = result (for_line_in acc ls err).
Proof.
  revert acc; induction ls as [|line ls IH]; intros acc; [reflexivity|].
  simpl filter. destruct (malformed line) eqn:E; simpl negb; cbv iota.
  - rewrite (for_line_in_cons acc line ls), (line_body_malformed acc line E).
    apply IH.
  - rewrite !for_line_in_cons.
    destruct (result (line_body acc line)) as [e|[[] acc']]; auto.
Qed.

Lemma for_line_in_first_done (before after : list pybytes) (line : pybytes)
    err (items : dict json) (text acc : pystr) :
  (forall l its, In l before -> l <> [] -> fragment l = Some its ->
                 fragment_done its = false) ->
  result (for_line_in [] before None) = inr acc ->
  line <> [] ->
  fragment line = Some items ->
  fragment_text items = Some text ->
  fragment_done items = true ->
  result (for_line_in [] (before ++ line :: after) err) = inr (acc ++ text).
Proof.
  intros Hbefore Hacc Hne Hf Ht Hd.
  erewrite for_line_in_app; [|exact Hbefore|exact Hacc].
  rewrite for_line_in_cons.
  erewrite line_body_fragment; [|exact Hne|exact Hf|exact Ht].
  now rewrite Hd.
Qed.

(** C2, amended. The loop stops at the first fragment whose [done] entry
    is true, after appending that fragment's text, and nothing that follows
    it in the stream matters: when the lines before it are consumed without
    error and leave [acc] accumulated, the result is [acc] followed by the
    fragment's text, trimmed. The text of a fragment is its [response]
    entry. *)
Theorem make_request_stops_at_first_done
    (url : pystr) (data : dict json) (session : Session) (response : Response)
    (before after : list pybytes) (line : pybytes)
    (items : dict json) (text acc : pystr) :
  post session url data = inr response ->
  raise_for_status response = inr tt ->
  lines response = before ++ line :: after ->
  (forall l its, In l before -> l <> [] -> fragment l = Some its ->
                 fragment_done its = false) ->
  result (for_line_in [] before None) = inr acc ->
  line <> [] ->
  fragment line = Some items ->
  fragment_text items = Some text ->
  fragment_done items = true ->
  result (make_request url data session)
  = inr [(str "text", strip (acc ++ text))].
Proof.
  intros Hpost Hstatus Hlines Hbefore Hacc Hne Hf Ht Hd.
  eapply make_request_text; [exact Hpost | exact Hstatus |].
  rewrite Hlines. erewrite for_line_in_app; [|exact Hbefore|exact Hacc].
  rewrite for_line_in_cons.
  erewrite line_body_fragment; [|exact Hne|exact Hf|exact Ht].
  now rewrite Hd.
Qed.

(** C3, amended. When every non-empty line of the stream is an object
    whose [response] entry, if any, is a string, the last line has a true
    [done] entry and no line before it has one, the result is the texts of
    the lines joined in order and trimmed. *)
Theorem make_request_concatenates
    (url : pystr) (data : dict json) (session : Session) (response : Response)
    (before : list pybytes) (last : pybytes) :
  post session url data = inr response ->
  raise_for_status response = inr tt ->
  lines response = before ++ [last] ->
  (forall l, In l (before ++ [last]) -> l <> [] ->
     exists its text, fragment l = Some its /\ fragment_text its = Some text) ->
  (forall l its, In l before -> l <> [] -> fragment l = Some its ->
                 fragment_done its = false) ->
  last <> [] ->
  (forall its, fragment last = Some its -> fragment_done its = true) ->
  result (make_request url data session)
  = inr [(str "text",
          strip (List.concat (map line_text (before ++ [last]))))].
Proof.
  intros Hpost Hstatus Hlines Hobj Hbefore Hne Hlast.
  assert (Hpass : Forall passes before).
  { apply Forall_forall; intros l Hin.
    destruct l as [|b l]; [now left|]. right; right.
    destruct (Hobj (b :: l)) as (its & text & Hf & Ht);
      [apply in_or_app; now left | discriminate |].
    exists its, text; repeat split; try assumption.
    apply (Hbefore (b :: l)); [assumption | discriminate | assumption]. }
  destruct (Hobj last) as (its & text & Hf & Ht);
    [apply in_or_app; right; now left | assumption |].
  assert (Hloop : result (for_line_in [] (lines response)
                            (stream_error response))
                  = inr (List.concat (map line_text before) ++ text)).
  { rewrite Hlines.
    eapply for_line_in_first_done;
      [ exact Hbefore | exact (@for_line_in_passes _ before [] Hpass)
      | exact Hne | exact Hf | exact Ht | exact (Hlast its Hf) ]. }
  erewrite make_request_text; [|exact Hpost|exact Hstatus|exact Hloop].
  assert (Hlt : line_text last = text).
  { destruct last as [|b l]; [contradiction|].
    unfold line_text. now rewrite Hf, Ht. }
  rewrite map_app, concat_app. cbn [map List.concat].
  now rewrite Hlt, app_nil_r.
Qed.

Lemma no_fragment_no_text (ls : list pybytes) :
  (forall l, In l ls -> l = [] \/ malformed l = true) ->
  List.concat (map line_text ls) = [].
Proof.
  induction ls as [|l ls IH]; intros Hnone; [reflexivity|].
  simpl. rewrite IH by (intros l' Hin; apply Hnone; now right).
  rewrite app_nil_r.
  destruct (Hnone l (or_introl eq_refl)) as [-> | Hm]; [reflexivity|].
  unfold line_text, fragment. unfold malformed in Hm.
  destruct l as [|b l]; [reflexivity|].
  destruct (bytes_decode (b :: l)) as [decoded|]; [|reflexivity].
  destruct (json_loads decoded) as [[]|[]]; try discriminate; reflexivity.
Qed.

(** X22. A stream that ends without a fragment whose [done] entry is true,
    and whose lines are empty, malformed, or fragments with a string for
    text, is read to its end: every line that is not empty is decoded, as
    the log shows, and [make_request] returns the text of all the lines,
    joined and trimmed. When no line is a fragment the text returned is
    empty. *)
Theorem make_request_drains
    (url : pystr) (data : dict json) (session : Session) (response : Response) :
  post session url data = inr response ->
  raise_for_status response = inr tt ->
  stream_error response = None ->
  Forall passes (lines response) ->
  result (make_request url data session)
  = inr [(str "text", strip (List.concat (map line_text (lines response))))]
  /\
  decoded_lines (logged (make_request url data session))
  = texts (lines response) /\
  ((forall l, In l (lines response) -> l = [] \/ malformed l = true) ->
   result (make_request url data session) = inr [(str "text", [])]).
Proof.
  intros Hpost Hstatus Hend Hpass.
  pose proof (@for_line_in_passes _ (lines response) [] Hpass) as Hloop.
  rewrite <- Hend in Hloop.
  assert (Hres : result (make_request url data session)
                 = inr [(str "text",
                         strip (List.concat (map line_text (lines response))))]).
  { eapply make_request_text; [exact Hpost | exact Hstatus |].
    rewrite Hend. exact (@for_line_in_passes _ (lines response) [] Hpass). }
  split; [exact Hres|]. split.
  { erewrite make_request_text_log; [|exact Hpost|exact Hstatus|exact Hloop].
    rewrite Hend. apply for_line_in_passes_log; exact Hpass. }
  intros Hnone. rewrite Hres.
  now rewrite (no_fragment_no_text _ Hnone).
Qed.

End Stream.

(* ===================================================================== *)
(** * [chat_with_gpt] *)
(* ===================================================================== *)

Section Chat.

Context {environ : Environ} {decoder : Json}.

Lemma chat_with_gpt_result (prompt : pystr) (syllabus_data : json)
    (session : Session) :
  result (chat_with_gpt prompt syllabus_data session) =
  match result (make_request OLLAMA_URL
                  (create_request_data prompt syllabus_data) session) with
  | inl e => inl e
  | inr response_data =>
    match dict_get response_data (str "error") with
    | Some error => inr (str "An error occurred: " ++ error)
    | None =>
      inr (strip (dict_get_default response_data (str "text")
                    (str "No response text found.")))
    end
  end.
Proof.
  unfold chat_with_gpt. rewrite result_bind.
  destruct (result (make_request OLLAMA_URL
                      (create_request_data prompt syllabus_data) session))
    as [e|response_data]; [reflexivity|].
  destruct (dict_get response_data (str "error")); reflexivity.
Qed.

(** C5 fails on the code. A line that is not UTF-8 makes
    [bytes.decode] raise [UnicodeDecodeError]; the inner handler only
    catches [JSONDecodeError], the outer ones only the exceptions of
    [requests], so the exception leaves [make_request] and [chat_with_gpt],
    whatever follows in the stream. *)
Theorem undecodable_line_escapes (prompt : pystr) (syllabus_data : json)
    (url : pystr) (data : dict json) (rest : list pybytes) :
  result (make_request url data (answering ([xff] :: rest)))
  = inl UnicodeDecodeError /\
  result (chat_with_gpt prompt syllabus_data (answering ([xff] :: rest)))
  = inl UnicodeDecodeError.
Proof.
  assert (H : forall u d, result (make_request u d (answering ([xff] :: rest)))
                          = inl UnicodeDecodeError).
  { intros u d. rewrite make_request_result. reflexivity. }
  split; [apply H|].
  now rewrite chat_with_gpt_result, H.
Qed.


(** C10. A record that [make_request] returns holds either [error] or
    [text], never both and never neither. So when there is no [error] the
    lookup of [text] in [chat_with_gpt] finds the entry, whatever default it
    is given, and what [chat_with_gpt] returns is that text, which has no
    white space at either end. *)
Theorem chat_with_gpt_text_is_trimmed (prompt : pystr) (syllabus_data : json)
    (session : Session) (response_data : dict pystr) :
  result (make_request OLLAMA_URL
            (create_request_data prompt syllabus_data) session)
  = inr response_data ->
  dict_get response_data (str "error") = None ->
  exists text,
    response_data = [(str "text", text)] /\
    (forall default,
        dict_get_default response_data (str "text") default = text) /\
    result (chat_with_gpt prompt syllabus_data session) = inr text /\
    trimmed text.
Proof.
  intros Hreq Hnoerr.
  rewrite chat_with_gpt_result, Hreq, Hnoerr.
  rewrite make_request_result in Hreq.
  destruct (post session OLLAMA_URL (create_request_data prompt syllabus_data))
    as [e|response].
  { destruct e; try discriminate. injection Hreq as <-. discriminate. }
  destruct (raise_for_status response) as [e|[]].
  { destruct e; try discriminate. injection Hreq as <-. discriminate. }
  destruct (result (for_line_in [] (lines response) (stream_error response)))
    as [e|full_response].
  { destruct e; try discriminate. injection Hreq as <-. discriminate. }
  injection Hreq as <-.
  exists (strip full_response). split; [reflexivity|].
  split; [intros default; apply dict_get_default_single|]. split.
  - now rewrite dict_get_default_single, strip_idempotent.
  - apply strip_trimmed.
Qed.

End Chat.

(* ===================================================================== *)
(** * Runs on concrete streams *)
(* ===================================================================== *)

Module Runs.

Import Samples.

(** C2, as the claim words it, fails: the three lines keyed [text] carry
    no [response] entry, so the accumulated text is empty, not AB. *)
Lemma text_keyed_lines_give_empty_text :
  run text_keyed = inr [(str "text", [])] /\
  run text_keyed <> inr [(str "text", str "AB")].
Proof. split; [reflexivity | vm_compute; discriminate]. Qed.

Lemma make_request_stops_at_first_done_witness :
  run response_keyed = inr [(str "text", str "AB")].
Proof.
  apply (@make_request_stops_at_first_done reference_json endpoint []
           (answering response_keyed) (ok_response response_keyed)
           [json_bytes "{'response':'A','done':false}"]
           [json_bytes "{'response':'C','done':false}"]
           (json_bytes "{'response':'B','done':true}")
           [(str "response", JStr (str "B")); (str "done", JBool true)]
           (str "B") (str "A")).
  - reflexivity.
  - reflexivity.
  - reflexivity.
  - intros l its [<- | []] _ H. vm_compute in H.
    injection H as <-. reflexivity.
  - reflexivity.
  - discriminate.
  - reflexivity.
  - reflexivity.
  - reflexivity.
Defined.

(** C3, as the claim words it, fails: both lines are objects and the last
    one has [done] true, yet the loop stops at the first line, and the text
    returned is A, not the texts of all the lines joined. *)
Lemma early_done_cuts_the_text :
  (forall l, In l done_twice ->
     exists items, @fragment reference_json l = Some items) /\
  (exists items, @fragment reference_json
                   (json_bytes "{'response':'B','done':true}") = Some items /\
                 fragment_done items = true) /\
  run done_twice = inr [(str "text", str "A")] /\
  strip (List.concat (map (@line_text reference_json) done_twice)) = str "AB" /\
  run done_twice
  <> inr [(str "text",
           strip (List.concat (map (@line_text reference_json) done_twice)))].
Proof.
  split; [|split; [|split; [|split]]].
  - intros l [<- | [<- | []]]; eexists; vm_compute; reflexivity.
  - eexists; split; vm_compute; reflexivity.
  - reflexivity.
  - reflexivity.
  - vm_compute; discriminate.
Qed.

Lemma make_request_concatenates_witness :
  run [ json_bytes "{'response':' Hello','done':false}";
        json_bytes "{'response':', world ','done':true}" ]
  = inr [(str "text", str "Hello, world")].
Proof.
  apply (@make_request_concatenates reference_json endpoint []
           (answering [ json_bytes "{'response':' Hello','done':false}";
                        json_bytes "{'response':', world ','done':true}" ])
           (ok_response [ json_bytes "{'response':' Hello','done':false}";
                          json_bytes "{'response':', world ','done':true}" ])
           [json_bytes "{'response':' Hello','done':false}"]
           (json_bytes "{'response':', world ','done':true}")).
  - reflexivity.
  - reflexivity.
  - reflexivity.
  - intros l [<- | [<- | []]] _; eexists _, _; split; vm_compute; reflexivity.
  - intros l its [<- | []] _ H. vm_compute in H.
    injection H as <-. reflexivity.
  - discriminate.
  - intros its H. vm_compute in H. injection H as <-. reflexivity.
Defined.

(** C6 fails on the code. None of these streams holds a fragment whose
    [done] entry is true, and none of them is read to its end with a text
    returned. A line that is not UTF-8, a line that is JSON but not an
    object, and an object whose text is [null] each end [make_request] with
    an exception: when they are the only line of the stream, which then has
    no valid line at all, and when they come after a fragment, whose text
    is then lost. *)
Theorem streams_without_done_can_raise :
  let no_done body :=
    forall l items,
      In l body -> @fragment reference_json l = Some items ->
      fragment_done items = false in
  (no_done [[xff]] /\ run [[xff]] = inl UnicodeDecodeError) /\
  (no_done [json_bytes "[1]"] /\ run [json_bytes "[1]"] = inl AttributeError) /\
  (no_done [json_bytes "{'response':null}"] /\
   run [json_bytes "{'response':null}"] = inl TypeError) /\
  (no_done [json_bytes "{'response':'par'}"; [xff]] /\
   run [json_bytes "{'response':'par'}"; [xff]] = inl UnicodeDecodeError).
Proof.
  intros no_done; subst no_done.
  repeat split; try reflexivity.
  - intros l items [<- | []] H. vm_compute in H. discriminate.
  - intros l items [<- | []] H. vm_compute in H. discriminate.
  - intros l items [<- | []] H. vm_compute in H. injection H as <-.
    reflexivity.
  - intros l items [<- | [<- | []]] H; vm_compute in H; [|discriminate].
    injection H as <-. reflexivity.
Qed.

Lemma make_request_drains_witness :
  run unfinished = inr [(str "text", str "partial")].
Proof.
  apply (@make_request_drains reference_json endpoint []
           (answering unfinished) (ok_response unfinished)).
  - reflexivity.
  - reflexivity.
  - reflexivity.
  - apply Forall_cons; [|apply Forall_cons; [|apply Forall_cons; [|apply Forall_nil]]].
    + right; right. eexists _, _. repeat split; vm_compute; reflexivity.
    + right; left. reflexivity.
    + right; right. eexists _, _. repeat split; vm_compute; reflexivity.
Defined.


Lemma chat_with_gpt_text_is_trimmed_witness :
  exists text,
    [(str "text", str "Hello, world")] = [(str "text", text)] /\
    (forall default,
        dict_get_default [(str "text", str "Hello, world")] (str "text") default
        = text) /\
    result (@chat_with_gpt bare_environ reference_json (str "hi") (JDict [])
              (answering noisy)) = inr text /\
    trimmed text.
Proof.
  apply (@chat_with_gpt_text_is_trimmed bare_environ reference_json
           (str "hi") (JDict []) (answering noisy)
           [(str "text", str "Hello, world")]).
  - reflexivity.
  - reflexivity.
Defined.

End Runs.

(* ===================================================================== *)
(** * More on [make_request] *)
(* ===================================================================== *)


Section Request_edges.

Context {decoder : Json}.

#[local] Arguments str : simpl never.
#[local] Arguments dict_get_default : simpl never.
#[local] Arguments bytes_decode : simpl never.
#[local] Arguments truthy : simpl never.

Lemma passes_cases (line : pybytes) :
  passes line ->
  line = [] \/
  exists b rest decoded,
    line = b :: rest /\ bytes_decode line = Some decoded /\
    ((malformed line = true /\
      exists json_err, json_loads decoded = inl (JSONDecodeError json_err)) \/
     (malformed line = false /\
      exists items text,
        json_loads decoded = inr (JDict items) /\
        fragment_text items = Some text /\ fragment_done items = false)).
Proof.
  intros [-> | [Hm | (items & text & Hf & Ht & Hd)]]; [now left| |].
  - right. unfold malformed in *. destruct line as [|b rest]; [discriminate|].
    destruct (bytes_decode (b :: rest)) as [decoded|] eqn:E; [|discriminate].
    exists b, rest, decoded. repeat split. left. split; [exact Hm|].
    destruct (json_loads decoded) as [[]|]; try discriminate.
    eexists; reflexivity.
  - destruct line as [|b rest]; [now left|]. right.
    unfold fragment, malformed in *.
    destruct (bytes_decode (b :: rest)) as [decoded|] eqn:E; [|discriminate].
    exists b, rest, decoded. repeat split. right.
    destruct (json_loads decoded) as [|[]]; try discriminate.
    injection Hf as ->. split; [reflexivity|]. now exists items, text.
Qed.

Lemma passes_never_done (line : pybytes) items :
  passes line -> line <> [] -> fragment line = Some items ->
  fragment_done items = false.
Proof.
  intros Hp Hne Hf.
  destruct (passes_cases Hp) as [-> | (b & rest & decoded & -> & Hdec & H)];
    [contradiction|].
  unfold fragment in Hf. rewrite Hdec in Hf.
  destruct H as [[_ (json_err & Hl)] | [_ (its & text & Hl & _ & Hd)]];
    rewrite Hl in Hf; [discriminate|].
  injection Hf as <-. exact Hd.
Qed.

(** What a line that is JSON does to the loop. *)
Lemma line_body_value (acc : pystr) (line : pybytes) decoded value :
  line <> [] -> bytes_decode line = Some decoded ->
  json_loads decoded = inr value ->
  result (line_body acc line) =
  match value with
  | JDict items =>
    match fragment_text items with
    | Some text => inr (if fragment_done items then Break else Next, acc ++ text)
    | None => inl TypeError
    end
  | _ => inl AttributeError
  end.
Proof.
  intros Hne Hdec Hloads. destruct line as [|b rest]; [contradiction|].
  unfold line_body. rewrite Hdec. simpl. rewrite Hloads.
  destruct value; try reflexivity.
  unfold fragment_text, fragment_done. simpl.
  destruct (dict_get_default items (str "response") (JStr []));
    try reflexivity.
  simpl.
  destruct (truthy (dict_get_default items (str "done") (JBool false)));
    reflexivity.
Qed.

Lemma line_body_passes_rejected (acc : pystr) (line : pybytes) :
  passes line ->
  rejected_lines (logged (line_body acc line))
  = if malformed line then [line] else [].
Proof.
  intros Hp.
  destruct (passes_cases Hp) as [-> | (b & rest & decoded & -> & Hdec & H)];
    [reflexivity|].
  destruct H as [[Hm (json_err & Hl)] | [Hm (its & text & Hl & Ht & Hd)]];
    rewrite Hm; unfold line_body; rewrite Hdec; simpl; rewrite Hl; simpl;
    [reflexivity|].
  unfold fragment_text, fragment_done in *.
  destruct (dict_get_default its (str "response") (JStr []));
    try discriminate.
  simpl. rewrite Hd. reflexivity.
Qed.

Lemma rejected_lines_app (lg lg' : list log_record) :
  rejected_lines (lg ++ lg') = rejected_lines lg ++ rejected_lines lg'.
Proof. unfold rejected_lines. apply flat_map_app. Qed.

Lemma for_line_in_passes_rejected (ls : list pybytes) (acc : pystr) :
  Forall passes ls ->
  rejected_lines (logged (for_line_in acc ls None)) = filter malformed ls.
Proof.
  intros H; revert acc; induction H as [|line ls Hl _ IH]; intros acc.
  - reflexivity.
  - simpl for_line_in. rewrite logged_bind, (line_body_passes acc Hl).
    rewrite rejected_lines_app.
    rewrite (line_body_passes_rejected acc Hl), IH. simpl filter.
    destruct (malformed line); reflexivity.
Qed.

(** X1. The status of the response decides before anything is read. From
    400 up to 599 [make_request] returns the error record that quotes the
    status, the reason and the address, logs that one error and leaves the
    body alone. Any other status is no error, and the body is read as the
    body of a 200 is. *)
Theorem make_request_by_status (address : pystr) (data : dict json)
    (session : Session) (response : Response) :
  post session address data = inr response ->
  let status := status_code response in
  let message :=
    format_int status
    ++ str (if (status <? 500)%Z then " Client Error: " else " Server Error: ")
    ++ reason response ++ str " for url: " ++ url response in
  ((400 <= status < 600)%Z ->
   make_request address data session
   = (inr [(str "error", str "HTTP error: " ++ message)],
      [(ERROR, HTTP_error_occurred message)])) /\
  (~ (400 <= status < 600)%Z ->
   make_request address data session
   = make_request address data (receiving (with_status 200 response))).
Proof.
  intros Hpost status message. subst status message. split; intros Hrange.
  - unfold make_request. rewrite Hpost. cbn [bind call].
    unfold raise_for_status.
    assert ((400 <=? status_code response)%Z = true) as -> by lia.
    destruct (status_code response <? 500)%Z eqn:E; cbn [andb].
    + reflexivity.
    + assert ((500 <=? status_code response)%Z = true) as -> by lia.
      assert ((status_code response <? 600)%Z = true) as -> by lia.
      reflexivity.
  - unfold make_request. rewrite Hpost. cbn [bind call post receiving].
    assert (raise_for_status response = inr tt) as ->; [|reflexivity].
    unfold raise_for_status.
    destruct (400 <=? status_code response)%Z eqn:E1;
      destruct (status_code response <? 500)%Z eqn:E2;
      destruct (500 <=? status_code response)%Z eqn:E3;
      destruct (status_code response <? 600)%Z eqn:E4;
      cbn [andb]; try reflexivity; lia.
Qed.

(** X2. A line that is JSON but not what the loop expects ends the
    request with an exception that no clause of [make_request] catches:
    [AttributeError] when the value is not an object, [TypeError] when the
    object's [response] entry is not a string. The text accumulated from
    the lines before it is not returned. *)
Theorem unexpected_json_line_escapes (address : pystr) (data : dict json)
    (session : Session) (response : Response)
    (before after : list pybytes) (line : pybytes)
    (decoded : pystr) (value : json) :
  post session address data = inr response ->
  raise_for_status response = inr tt ->
  lines response = before ++ line :: after ->
  Forall passes before ->
  line <> [] ->
  bytes_decode line = Some decoded ->
  json_loads decoded = inr value ->
  match value with
  | JDict items => fragment_text items = None
  | _ => True
  end ->
  result (make_request address data session)
  = inl (match value with JDict _ => TypeError | _ => AttributeError end).
Proof.
  intros Hpost Hstatus Hlines Hbefore Hne Hdec Hloads Hbad.
  rewrite make_request_result, Hpost, Hstatus, Hlines.
  erewrite for_line_in_app;
    [ | intros l its Hin Hl Hf;
        apply (passes_never_done (proj1 (Forall_forall _ _) Hbefore l Hin) Hl Hf)
      | apply for_line_in_passes; exact Hbefore ].
  rewrite for_line_in_cons.
  erewrite line_body_value; [|exact Hne|exact Hdec|exact Hloads].
  destruct value; try reflexivity. now rewrite Hbad.
Qed.

(** X3. When the connection breaks while the body is read, after lines
    that did not end the stream, the text read so far is dropped:
    [make_request] returns the error record of the exception's class. *)
Theorem broken_stream_drops_the_text (address : pystr) (data : dict json)
    (session : Session) (response : Response)
    (cls : requests_class) (detail : pystr) :
  post session address data = inr response ->
  raise_for_status response = inr tt ->
  Forall passes (lines response) ->
  stream_error response = Some (Requests cls detail) ->
  result (make_request address data session)
  = inr [(str "error", reported cls detail)].
Proof.
  intros Hpost Hstatus Hpass Herr.
  apply make_request_reports. right. exists response.
  split; [exact Hpost|]. right. split; [exact Hstatus|].
  rewrite Herr.
  rewrite <- (app_nil_r (lines response)).
  erewrite for_line_in_app;
    [ reflexivity
    | intros l its Hin Hl Hf;
      apply (passes_never_done (proj1 (Forall_forall _ _) Hpass l Hin) Hl Hf)
    | apply for_line_in_passes; exact Hpass ].
Qed.

(** X4. For a stream that is read to its end, the lines that the log
    reports as malformed are exactly the malformed lines of the body, each
    once and in the order of the stream. *)
Theorem log_names_the_malformed_lines (address : pystr) (data : dict json)
    (session : Session) (response : Response) :
  post session address data = inr response ->
  raise_for_status response = inr tt ->
  stream_error response = None ->
  Forall passes (lines response) ->
  rejected_lines (logged (make_request address data session))
  = filter malformed (lines response).
Proof.
  intros Hpost Hstatus Hend Hpass.
  pose proof (@for_line_in_passes _ (lines response) [] Hpass) as Hloop.
  rewrite <- Hend in Hloop.
  erewrite make_request_text_log; [|exact Hpost|exact Hstatus|exact Hloop].
  rewrite Hend. apply for_line_in_passes_rejected; exact Hpass.
Qed.


(** The one record at level ERROR that a line can leave is the one of a
    malformed line. *)
Lemma line_body_rejected (acc : pystr) (line : pybytes) :
  rejected_lines (logged (line_body acc line))
  = if malformed line then [line] else [].
Proof.
  destruct line as [|b rest]; [reflexivity|].
  unfold line_body, malformed.
  destruct (bytes_decode (b :: rest)) as [decoded|]; [|reflexivity].
  simpl.
  destruct (json_loads decoded) as [e|value].
  - destruct e; reflexivity.
  - destruct value; try reflexivity.
    simpl.
    destruct (dict_get_default items (str "response") (JStr []));
      try reflexivity.
    simpl.
    destruct (truthy (dict_get_default items (str "done") (JBool false)));
      reflexivity.
Qed.


Lemma for_line_in_rejected (ls : list pybytes) err :
  forall acc,
    rejected_lines (logged (for_line_in acc ls err))
    = filter malformed (lines_read acc ls).
Proof.
  induction ls as [|line ls IH]; intros acc.
  - destruct err; reflexivity.
  - cbn [for_line_in lines_read filter]. rewrite logged_bind.
    pose proof (line_body_rejected acc line) as Hline.
    destruct (result (line_body acc line)) as [e|[[] acc']].
    + rewrite Hline. destruct (malformed line); reflexivity.
    + rewrite rejected_lines_app, Hline, IH.
      destruct (malformed line); reflexivity.
    + rewrite rejected_lines_app, Hline.
      destruct (malformed line); reflexivity.
Qed.

Lemma lines_read_In (ls : list pybytes) :
  forall acc l, In l (lines_read acc ls) -> In l ls.
Proof.
  induction ls as [|line ls IH]; intros acc l; [intros []|].
  cbn [lines_read]. intros [<- | Hin]; [now left|]. right.
  destruct (result (line_body acc line)) as [e|[[] acc']];
    [destruct Hin | exact (IH _ _ Hin) | destruct Hin].
Qed.

Lemma filter_none {A} (f : A -> bool) (l : list A) :
  (forall x, In x l -> f x = false) -> filter f l = [].
Proof.
  induction l as [|x l IH]; intros H; [reflexivity|].
  simpl. rewrite (H x (or_introl eq_refl)).
  apply IH. intros y Hy. apply H. now right.
Qed.

(** The records of [make_request] about malformed lines are those of its
    loop. *)
Lemma make_request_rejected (address : pystr) (data : dict json)
    (session : Session) (response : Response) :
  post session address data = inr response ->
  raise_for_status response = inr tt ->
  rejected_lines (logged (make_request address data session))
  = rejected_lines
      (logged (for_line_in [] (lines response) (stream_error response))).
Proof.
  intros Hpost Hstatus. unfold make_request.
  rewrite Hpost. cbn [bind call]. rewrite Hstatus. cbn [bind call].
  destruct (for_line_in [] (lines response) (stream_error response))
    as [[e|full] lg].
  - destruct e as [| | | | | | | |cls detail];
      try (cbn; now rewrite ?app_nil_r).
    destruct cls; cbn; rewrite ?app_nil_r, ?rejected_lines_app; cbn;
      now rewrite ?app_nil_r.
  - cbn. now rewrite !app_nil_r.
Qed.


(** X21. The malformed lines of a body are skipped and reported, each
    once. Taking them out of the body changes nothing in what
    [make_request] returns or raises; the lines that its log reports as
    malformed are the malformed lines among those that it read, in the
    order of the stream; and it reports none when they are taken out. *)
Theorem malformed_lines_are_skipped_and_reported
    (address : pystr) (data : dict json) (session : Session)
    (response : Response) :
  post session address data = inr response ->
  raise_for_status response = inr tt ->
  result (make_request address data session)
  = result (make_request address data
              (receiving (without_malformed response))) /\
  rejected_lines (logged (make_request address data session))
  = filter malformed (lines_read [] (lines response)) /\
  rejected_lines
    (logged (make_request address data
               (receiving (without_malformed response))))
  = [].
Proof.
  intros Hpost Hstatus. split; [|split].
  - rewrite !make_request_result, Hpost. cbn [post receiving].
    change (raise_for_status (without_malformed response))
      with (raise_for_status response).
    rewrite Hstatus. cbn [lines stream_error without_malformed].
    now rewrite for_line_in_without_malformed.
  - erewrite make_request_rejected; [|exact Hpost|exact Hstatus].
    apply for_line_in_rejected.
  - erewrite make_request_rejected; [|reflexivity|exact Hstatus].
    rewrite for_line_in_rejected. apply filter_none.
    intros l Hin. apply lines_read_In in Hin.
    cbn [lines without_malformed] in Hin.
    apply filter_In in Hin. destruct Hin as [_ Hl].
    now destruct (malformed l).
Qed.

(** C4 fails on the code. The handler in the loop catches
    [json.JSONDecodeError] and nothing else, so a line is skipped only when
    that is what fails. A line that the decoder gives up on with another
    exception, as [RecursionError] for arrays nested deeper than the
    interpreter allows or [ValueError] for an integer of more digits than
    [int] converts, is not skipped and not logged as malformed: the
    exception leaves the loop and [make_request], and the lines before it
    and after it are lost. *)
Theorem unparsed_line_aborts_the_request
    (address : pystr) (data : dict json) (session : Session)
    (response : Response) (before after : list pybytes) (line : pybytes)
    (decoded : pystr) (e : exn) :
  post session address data = inr response ->
  raise_for_status response = inr tt ->
  lines response = before ++ line :: after ->
  Forall passes before ->
  line <> [] ->
  bytes_decode line = Some decoded ->
  json_loads decoded = inl e ->
  (forall msg, e <> JSONDecodeError msg) ->
  (forall cls detail, e <> Requests cls detail) ->
  result (make_request address data session) = inl e /\
  malformed line = false /\
  ~ In line (rejected_lines (logged (make_request address data session))).
Proof.
  intros Hpost Hstatus Hlines Hbefore Hne Hdec Hloads Hjson Hrequests.
  assert (Hbody : forall acc, result (line_body acc line) = inl e).
  { intros acc. destruct line as [|b rest]; [contradiction|].
    unfold line_body. rewrite Hdec. simpl. rewrite Hloads.
    destruct e; try reflexivity. now destruct (Hjson msg). }
  assert (Hm : malformed line = false).
  { destruct line as [|b rest]; [reflexivity|].
    unfold malformed. rewrite Hdec, Hloads.
    destruct e; try reflexivity. now destruct (Hjson msg). }
  split; [|split; [exact Hm|]].
  - rewrite make_request_result, Hpost, Hstatus, Hlines.
    erewrite for_line_in_app;
      [ | intros l its Hin Hl Hf;
          apply (passes_never_done (proj1 (Forall_forall _ _) Hbefore l Hin)
                   Hl Hf)
        | apply for_line_in_passes; exact Hbefore ].
    rewrite for_line_in_cons, Hbody.
    destruct e; try reflexivity. now destruct (Hrequests cls detail).
  - erewrite make_request_rejected; [|exact Hpost|exact Hstatus].
    rewrite for_line_in_rejected. intros Hin.
    apply filter_In in Hin. destruct Hin as [_ Hin]. congruence.
Qed.

End Request_edges.

(* ===================================================================== *)
(** * More on the session *)
(* ===================================================================== *)







(** X8. When the request is sent and no attempt gets an answer, whatever
    the failures are, the session makes six attempts, and [make_request]
    returns the record that tells the user to check the server. *)
Theorem unanswered_request_is_a_connection_error {decoder : Json}
    (net : pystr -> dict json -> server) (address : pystr) (data : dict json)
    (pool path : pystr) (attempts : nat -> attempt) :
  net address data = Sent pool path attempts ->
  (forall n, exists e text repr, attempts n = Failed e text repr) ->
  post_attempts (net address data) = 6%nat /\
  result (make_request address data (setup_session net))
  = inr [(str "error",
          str "Connection error. Please check if the Ollama server is running.")].
Proof.
  intros Hnet Hdown.
  destruct (Hdown 0%nat) as (e0 & t0 & r0 & H0),
           (Hdown 1%nat) as (e1 & t1 & r1 & H1),
           (Hdown 2%nat) as (e2 & t2 & r2 & H2),
           (Hdown 3%nat) as (e3 & t3 & r3 & H3),
           (Hdown 4%nat) as (e4 & t4 & r4 & H4),
           (Hdown 5%nat) as (e5 & t5 & r5 & H5).
  assert (Hopen : urlopen session_retries (str "POST") attempts 5 0
                  = (MaxRetryError_error e5 r5, 6%nat)).
  { cbn [urlopen].
    change (is_method_retryable session_retries (str "POST")) with true.
    cbn [negb]. rewrite H0, H1, H2, H3, H4, H5, !andb_false_r. reflexivity. }
  rewrite make_request_result.
  unfold post_attempts, setup_session, post. rewrite Hnet.
  change DEFAULT_REDIRECT_LIMIT with 30%nat.
  cbn [Session_send]. unfold HTTPAdapter_send.
  cbn [max_retries session_adapter total session_retries].
  rewrite Hopen. destruct e5; split; reflexivity.
Qed.


(** X19. The retries are for [POST] alone. When the first answer is a
    redirect with status 301, 302 or 303, the session follows it with a
    [GET], which the policy does not retry: a read timeout of that request
    is raised at once as [ReadTimeout], after two attempts in all, and
    [make_request] reports that the request timed out. *)
Theorem redirected_post_can_time_out {decoder : Json}
    (net : pystr -> dict json -> server) (address : pystr) (data : dict json)
    (pool path : pystr) (attempts : nat -> attempt)
    (status : redirect_status) (pool' path' : pystr)
    (attempts' : nat -> attempt) (text repr : pystr) :
  net address data = Sent pool path attempts ->
  attempts 0%nat = Redirected status None (Sent pool' path' attempts') ->
  In status [Moved_Permanently; Found; See_Other] ->
  attempts' 0%nat = Failed ReadTimeoutError text repr ->
  post_attempts (net address data) = 2%nat /\
  post (setup_session net) address data = inl (Requests ReadTimeout text) /\
  result (make_request address data (setup_session net))
  = inr [(str "error",
          str "The request timed out. Please try again later.")].
Proof.
  intros Hnet H0 Hstatus H1.
  assert (Hmethod : rebuild_method status (str "POST") = str "GET").
  { simpl in Hstatus. destruct Hstatus as [<-|[<-|[<-|[]]]]; reflexivity. }
  assert (Hsend : Session_send session_adapter DEFAULT_REDIRECT_LIMIT
                    DEFAULT_REDIRECT_LIMIT (str "POST") (net address data)
                  = (inl (Requests ReadTimeout text), 2%nat)).
  { rewrite Hnet. change DEFAULT_REDIRECT_LIMIT with 30%nat.
    cbn [Session_send]. unfold HTTPAdapter_send at 1.
    cbn [max_retries session_adapter total session_retries urlopen].
    rewrite H0, Hmethod.
    cbn [Session_send]. unfold HTTPAdapter_send.
    cbn [max_retries session_adapter total session_retries urlopen].
    rewrite H1. reflexivity. }
  rewrite make_request_result.
  unfold post_attempts, setup_session, post. rewrite Hsend.
  repeat split; reflexivity.
Qed.

(** Following [n] redirects in a row costs one attempt each. *)
Lemma Session_send_redirecting (max_redirects : nat)
    (status : redirect_status) (final : server) (n : nat) :
  forall redirects_left method,
    (n <= redirects_left)%nat ->
    exists method',
      Session_send session_adapter max_redirects redirects_left method
        (redirecting n status final)
      = (fst (Session_send session_adapter max_redirects
                (redirects_left - n) method' final),
         (n + snd (Session_send session_adapter max_redirects
                     (redirects_left - n) method' final))%nat).
Proof.
  induction n as [|n IH]; intros redirects_left method Hn.
  - exists method. rewrite Nat.sub_0_r. cbn [redirecting Nat.add].
    now destruct (Session_send _ _ _ _ _).
  - destruct redirects_left as [|fewer]; [lia|].
    destruct (IH fewer (rebuild_method status method)) as (method' & Hrest);
      [lia|].
    exists method'. cbn [redirecting Session_send].
    unfold HTTPAdapter_send.
    cbn [max_retries session_adapter total session_retries urlopen].
    rewrite Hrest. reflexivity.
Qed.

Lemma Session_send_too_many (max_redirects : nat) (status : redirect_status)
    (final : server) :
  forall redirects_left n method,
    (redirects_left < n)%nat ->
    Session_send session_adapter max_redirects redirects_left method
      (redirecting n status final)
    = (inl (Requests TooManyRedirects
              (str "Exceeded " ++ format_int (Z.of_nat max_redirects)
               ++ str " redirects.")), S redirects_left).
Proof.
  induction redirects_left as [|fewer IH]; intros n method Hn;
    (destruct n as [|n]; [lia|]); cbn [redirecting Session_send];
    unfold HTTPAdapter_send;
    cbn [max_retries session_adapter total session_retries urlopen].
  - reflexivity.
  - rewrite IH by lia. reflexivity.
Qed.

(** X20. The session follows up to thirty redirects, whatever their status:
    after [n] redirects in a row to a server that answers 200, [post]
    returns that answer, and [n + 1] attempts were made. The thirty-first
    redirect in a row is not followed: [post] raises [TooManyRedirects]
    after 31 attempts, which [make_request] reports as an unexpected
    error. *)
Theorem redirects_are_followed_thirty_times {decoder : Json}
    (net : pystr -> dict json -> server) (address : pystr) (data : dict json)
    (status : redirect_status) (n : nat) :
  (forall body,
      net address data = redirecting n status (unavailable_then_ok 0 body) ->
      (n <= 30)%nat ->
      post_attempts (net address data) = S n /\
      result (make_request address data (setup_session net))
      = result (make_request address data (answering body))) /\
  (forall final,
      net address data = redirecting n status final ->
      (31 <= n)%nat ->
      post_attempts (net address data) = 31%nat /\
      post (setup_session net) address data
      = inl (Requests TooManyRedirects (str "Exceeded 30 redirects.")) /\
      result (make_request address data (setup_session net))
      = inr [(str "error", str "An unexpected error occurred.")]).
Proof.
  split.
  - intros body Hnet Hn.
    rewrite !make_request_result.
    unfold post_attempts, setup_session, post. rewrite Hnet.
    destruct (@Session_send_redirecting DEFAULT_REDIRECT_LIMIT status
                (unavailable_then_ok 0 body) n DEFAULT_REDIRECT_LIMIT
                (str "POST") Hn) as (method' & ->).
    cbn [fst snd].
    assert (Hfinal : forall left,
               Session_send session_adapter DEFAULT_REDIRECT_LIMIT left method'
                 (unavailable_then_ok 0 body)
               = (inr {| status_code := 200%Z; reason := str "OK";
                         url := str "http://localhost:11434/api/generate";
                         lines := body; stream_error := None |}, 1%nat)).
    { intros left. destruct left; cbn [unavailable_then_ok Session_send];
        unfold HTTPAdapter_send;
        cbn [max_retries session_adapter total session_retries urlopen
             Nat.ltb Nat.leb status_code];
        unfold is_retry;
        destruct (negb (is_method_retryable session_retries method'));
        reflexivity. }
    rewrite Hfinal. cbn [fst snd]. split; [lia | reflexivity].
  - intros final Hnet Hn.
    rewrite make_request_result.
    unfold post_attempts, setup_session, post. rewrite Hnet.
    rewrite Session_send_too_many by (unfold DEFAULT_REDIRECT_LIMIT; lia).
    repeat split; reflexivity.
Qed.

(* ===================================================================== *)
(** * The context file and the payload together *)
(* ===================================================================== *)

(** X9. Without a usable context file the requests carry no context: when
    [syllabus.json] is absent or holds text that the JSON decoder rejects,
    the payload built from what [load_syllabus_data] returns has the model
    and the prompt and nothing else. *)
Theorem payload_without_context_file {environ : Environ} {decoder : Json}
    (cwd : pystr -> file) :
  cwd SYLLABUS_FILE = Absent \/
  (exists content json_err,
      cwd SYLLABUS_FILE = Text content /\
      json_loads content = inl (JSONDecodeError json_err)) ->
  exists syllabus_data,
    result (load_syllabus_data cwd) = inr syllabus_data /\
    forall prompt,
      create_request_data prompt syllabus_data
      = [(str "model", JStr MODEL_NAME); (str "prompt", JStr prompt)].
Proof.
  intros H. exists (JDict []). split; [|reflexivity].
  unfold load_syllabus_data, json_load.
  destruct H as [-> | (content & json_err & -> & Hbad)]; simpl;
    [|rewrite Hbad]; reflexivity.
Qed.

(* ===================================================================== *)
(** * [main] *)
(* ===================================================================== *)

Lemma Forall_map_logged (P : effect -> Prop) (lg : list log_record) :
  (forall r, P (Logged r)) -> Forall P (map Logged lg).
Proof. intros H. induction lg; simpl; constructor; auto. Qed.

Lemma filter_map_logged (f : effect -> bool) (lg : list log_record) :
  (forall r, f (Logged r) = true) -> filter f (map Logged lg) = map Logged lg.
Proof.
  intros H. induction lg as [|r lg IH]; simpl; [reflexivity|].
  now rewrite H, IH.
Qed.

Lemma filter_map_logged_none (f : effect -> bool) (lg : list log_record) :
  (forall r, f (Logged r) = false) -> filter f (map Logged lg) = [].
Proof.
  intros H. induction lg as [|r lg IH]; simpl; [reflexivity|].
  now rewrite H, IH.
Qed.

Section Main_properties.

Context {environ : Environ} {decoder : Json} {lowercase : Lowercase}
        {platform : Platform}.

#[local] Arguments str : simpl never.
#[local] Arguments strip : simpl never.



(** [chat_with_gpt] uses the session for one thing: a [post] to the
    configured address with the payload of [create_request_data]. *)
Lemma chat_with_gpt_one_post (user_input : pystr) (syllabus_data : json)
    (session session' : Session) :
  post session OLLAMA_URL (create_request_data user_input syllabus_data)
  = post session' OLLAMA_URL (create_request_data user_input syllabus_data) ->
  chat_with_gpt user_input syllabus_data session
  = chat_with_gpt user_input syllabus_data session'.
Proof.
  intros H. unfold chat_with_gpt, make_request. now rewrite H.
Qed.

Lemma payload_prompt (user_input : pystr) (syllabus_data : json) :
  dict_get (create_request_data user_input syllabus_data) (str "prompt")
  = Some (JStr user_input).
Proof.
  unfold create_request_data. destruct (truthy syllabus_data); reflexivity.
Qed.

(** One turn of the loop, by what was typed. *)
Lemma conversation_blank syllabus_data net asked line rest :
  leaves (strip line) = false -> strip line = [] ->
  conversation syllabus_data net asked (Typed line :: rest)
  = (prompt :: print (str "Please enter a valid input.")
       :: fst (conversation syllabus_data net asked rest),
     snd (conversation syllabus_data net asked rest)).
Proof.
  intros Hl Hb. cbn [conversation]. cbv zeta. rewrite Hl, Hb.
  destruct (conversation syllabus_data net asked rest); reflexivity.
Qed.

Lemma conversation_leaves syllabus_data net asked line rest :
  leaves (strip line) = true ->
  conversation syllabus_data net asked (Typed line :: rest)
  = ([prompt; print (str "Goodbye!")], Left_loop).
Proof. intros Hl. cbn [conversation]. cbv zeta. now rewrite Hl. Qed.

Lemma conversation_asks syllabus_data net asked line rest :
  leaves (strip line) = false -> strip line <> [] ->
  conversation syllabus_data net asked (Typed line :: rest)
  = match chat_with_gpt (strip line) syllabus_data
            (setup_session (net asked)) with
    | (inl e, lg) => (prompt :: map Logged lg, Raised (Exception e))
    | (inr response, lg) =>
      (prompt :: map Logged lg
         ++ print3 ([10] ++ str "EduBot:") response [10]
         :: fst (conversation syllabus_data net (S asked) rest),
       snd (conversation syllabus_data net (S asked) rest))
    end.
Proof.
  intros Hl Hb. cbn [conversation]. cbv zeta. rewrite Hl.
  destruct (strip line) as [|c s]; [contradiction|].
  destruct (chat_with_gpt (c :: s) syllabus_data (setup_session (net asked)))
    as [[e|response] lg]; [reflexivity|].
  destruct (conversation syllabus_data net (S asked) rest); reflexivity.
Qed.

(** The three ways a typed line can go. *)
Lemma typed_cases (line : pystr) :
  leaves (strip line) = true \/
  (leaves (strip line) = false /\ strip line = []) \/
  (leaves (strip line) = false /\ strip line <> []).
Proof.
  destruct (leaves (strip line)); [now left|right].
  destruct (strip line); [left | right]; split; congruence.
Qed.

Lemma conversation_effects (P : effect -> Prop) syllabus_data net stdin :
  P prompt -> (forall text, P (print text)) ->
  (forall a b c, P (print3 a b c)) -> (forall r, P (Logged r)) ->
  forall asked, Forall P (fst (conversation syllabus_data net asked stdin)).
Proof.
  intros Hprompt Hprint Hprint3 Hlog.
  induction stdin as [|[line|] rest IH]; intros asked.
  - repeat constructor; assumption.
  - destruct (typed_cases line) as [Hl | [[Hl Hb] | [Hl Hb]]].
    + rewrite conversation_leaves by assumption. repeat constructor; auto.
    + rewrite conversation_blank by assumption. repeat constructor; auto.
    + rewrite conversation_asks by assumption.
      destruct (chat_with_gpt (strip line) syllabus_data
                  (setup_session (net asked))) as [[e|response] lg];
        cbn [fst]; constructor; auto.
      * apply Forall_map_logged; auto.
      * apply Forall_app; split; [apply Forall_map_logged; auto|].
        constructor; auto.
  - repeat constructor; assumption.
Qed.

Lemma clear_terminal_not (f : effect -> bool) :
  (forall command, f (System command) = false) ->
  Forall (fun e => f e = false) clear_terminal.
Proof.
  intros H. unfold clear_terminal.
  destruct (str_eqb os_name (str "nt")); repeat constructor. apply H.
Qed.

(** X10. Once the context is loaded, [main] closes the session on every
    way out: after an exit word, after an interrupt, at the end of the
    input and when a request raises. Closing is the last thing it does, and
    it does it once. *)
Theorem main_closes_the_session (cwd : pystr -> file)
    (net : nat -> pystr -> dict json -> server) (stdin : list keyboard)
    (syllabus_data : json) :
  result (load_syllabus_data cwd) = inr syllabus_data ->
  exists before,
    fst (main cwd net stdin) = before ++ [Session_close] /\
    Forall (fun e => is_close e = false) before.
Proof.
  intros Hload. unfold main.
  destruct (load_syllabus_data cwd) as [[e|sd] lg]; [discriminate|].
  pose proof (@conversation_effects (fun e => is_close e = false)
                sd net stdin eq_refl (fun _ => eq_refl)
                (fun _ _ _ => eq_refl) (fun _ => eq_refl) 0%nat) as Htalk.
  destruct (conversation sd net 0 stdin) as [talk how]. cbn [fst] in Htalk.
  assert (Hhead : Forall (fun e => is_close e = false)
                    ((clear_terminal
                      ++ [print (str "Welcome to the EduBot! Type 'quit', 'exit', or 'bye' to end the conversation.")])
                     ++ map Logged lg ++ talk)).
  { apply Forall_app; split.
    - apply Forall_app; split;
        [apply clear_terminal_not; reflexivity | repeat constructor].
    - apply Forall_app; split;
        [apply Forall_map_logged; reflexivity | exact Htalk]. }
  destruct how as [| |e]; cbn [fst].
  - eexists; split; [|exact Hhead]. now rewrite <- !app_assoc.
  - exists (((clear_terminal
              ++ [print (str "Welcome to the EduBot! Type 'quit', 'exit', or 'bye' to end the conversation.")])
             ++ map Logged lg ++ talk)
            ++ [print ([10] ++ str "Conversation ended by user.")]).
    split; [now rewrite <- !app_assoc|].
    apply Forall_app; split; [exact Hhead | repeat constructor].
  - eexists; split; [|exact Hhead]. now rewrite <- !app_assoc.
Qed.

(** X11. When [load_syllabus_data] raises, which it does for a file that
    cannot be read or decoded, [main] ends with that exception right after
    the banner: it shows no prompt, reads no input, makes no request and
    has no session to close. *)
Theorem main_stops_when_the_context_raises (cwd : pystr -> file)
    (net net' : nat -> pystr -> dict json -> server)
    (stdin stdin' : list keyboard) (e : exn) :
  result (load_syllabus_data cwd) = inl e ->
  snd (main cwd net stdin) = Some (Exception e) /\
  main cwd net stdin = main cwd net' stdin' /\
  Forall (fun ef => is_close ef || is_chatter ef = false)
         (fst (main cwd net stdin)).
Proof.
  intros Hload. unfold main.
  destruct (load_syllabus_data cwd) as [[e'|sd] lg]; [|discriminate].
  injection Hload as ->. split; [reflexivity|]. split; [reflexivity|].
  cbn [fst]. apply Forall_app; split.
  - apply Forall_app; split;
      [apply clear_terminal_not; reflexivity | repeat constructor].
  - apply Forall_map_logged; reflexivity.
Qed.

(** X12. Only real prompts reach the network: [main] depends on the
    network only through the requests whose prompt is stripped, not empty
    and not an exit word, sent to the configured address. Blank lines and
    exit words never cause a request. *)
Theorem main_asks_only_real_prompts (cwd : pystr -> file)
    (net net' : nat -> pystr -> dict json -> server) (stdin : list keyboard) :
  (forall n data user_input,
      dict_get data (str "prompt") = Some (JStr user_input) ->
      trimmed user_input -> user_input <> [] -> leaves user_input = false ->
      net n OLLAMA_URL data = net' n OLLAMA_URL data) ->
  main cwd net stdin = main cwd net' stdin.
Proof.
  intros Hsame. unfold main.
  destruct (load_syllabus_data cwd) as [[e|sd] lg]; [reflexivity|].
  assert (Htalk : forall asked,
             conversation sd net asked stdin = conversation sd net' asked stdin);
    [|now rewrite Htalk].
  induction stdin as [|[line|] rest IH]; intros asked; try reflexivity.
  destruct (typed_cases line) as [Hl | [[Hl Hb] | [Hl Hb]]].
  - now rewrite !conversation_leaves by assumption.
  - rewrite !conversation_blank by assumption. now rewrite IH.
  - rewrite !conversation_asks by assumption.
    rewrite (@chat_with_gpt_one_post (strip line) sd
               (setup_session (net asked)) (setup_session (net' asked))).
    + now rewrite IH.
    + unfold setup_session, post.
      now rewrite (Hsame asked _ (strip line) (payload_prompt _ _)
                     (strip_trimmed line) Hb Hl).
Qed.

(** X13. The loop reads nothing after an exit word or an interrupt:
    whatever follows in the input changes neither the effects of [main] nor
    how it ends. *)
Theorem main_reads_nothing_after_leaving (cwd : pystr -> file)
    (net : nat -> pystr -> dict json -> server)
    (before after : list keyboard) (k : keyboard) :
  match k with
  | Typed line => leaves (strip line) = true
  | Interrupt => True
  end ->
  main cwd net (before ++ k :: after) = main cwd net (before ++ [k]).
Proof.
  intros Hk. unfold main.
  destruct (load_syllabus_data cwd) as [[e|sd] lg]; [reflexivity|].
  assert (Htalk : forall asked,
             conversation sd net asked (before ++ k :: after)
             = conversation sd net asked (before ++ [k]));
    [|now rewrite Htalk].
  induction before as [|[line|] rest IH]; intros asked.
  - destruct k as [line|]; [|reflexivity].
    cbn [app]. now rewrite !conversation_leaves by assumption.
  - rewrite <- !app_comm_cons.
    destruct (typed_cases line) as [Hl | [[Hl Hb] | [Hl Hb]]].
    + now rewrite !conversation_leaves by assumption.
    + rewrite !conversation_blank by assumption. now rewrite IH.
    + rewrite !conversation_asks by assumption. now rewrite IH.
  - reflexivity.
Qed.

Lemma conversation_ends syllabus_data net stdin :
  forall asked,
    match snd (conversation syllabus_data net asked stdin) with
    | Left_loop =>
      exists line, In (Typed line) stdin /\ leaves (strip line) = true
    | Interrupted => In Interrupt stdin
    | Raised EOFError => True
    | Raised (Exception e) =>
      exists n user_input,
        trimmed user_input /\ user_input <> [] /\
        result (chat_with_gpt user_input syllabus_data (setup_session (net n)))
        = inl e
    end.
Proof.
  induction stdin as [|[line|] rest IH]; intros asked.
  - exact I.
  - destruct (typed_cases line) as [Hl | [[Hl Hb] | [Hl Hb]]].
    + rewrite conversation_leaves by assumption. cbn [snd].
      exists line. split; [now left | exact Hl].
    + rewrite conversation_blank by assumption. cbn [snd].
      specialize (IH asked).
      destruct (snd (conversation syllabus_data net asked rest)) as [| |[e|]];
        try exact I.
      * destruct IH as (l & Hin & Hlv). exists l. split; [now right|exact Hlv].
      * now right.
      * exact IH.
    + rewrite conversation_asks by assumption.
      destruct (chat_with_gpt (strip line) syllabus_data
                  (setup_session (net asked))) as [[e|response] lg] eqn:E;
        cbn [snd].
      * exists asked, (strip line). split; [apply strip_trimmed|].
        split; [exact Hb|]. unfold result. now rewrite E.
      * specialize (IH (S asked)).
        destruct (snd (conversation syllabus_data net (S asked) rest))
          as [| |[e|]]; try exact I.
        -- destruct IH as (l & Hin & Hlv). exists l.
           split; [now right|exact Hlv].
        -- now right.
        -- exact IH.
  - cbn. now left.
Qed.

(** X14. [main] returns without an exception only when the user typed an
    exit word or pressed the interrupt key. An input that ends without
    either leaves [main] with an exception: input that is piped in has to
    end with an exit word. *)
Theorem main_returns_only_when_told (cwd : pystr -> file)
    (net : nat -> pystr -> dict json -> server) (stdin : list keyboard) :
  snd (main cwd net stdin) = None ->
  In Interrupt stdin \/
  exists line, In (Typed line) stdin /\ leaves (strip line) = true.
Proof.
  unfold main.
  destruct (load_syllabus_data cwd) as [[e|sd] lg]; [discriminate|].
  pose proof (conversation_ends sd net stdin 0) as Hends.
  destruct (conversation sd net 0 stdin) as [talk how]. cbn [snd] in Hends.
  destruct how as [| |e]; cbn [snd]; intros H;
    [now right | now left | discriminate].
Qed.


(** X16. The only command [main] hands to the shell is [cls], first
    thing, and only when [os.name] is [nt]; on any other platform
    [clear_terminal] does nothing and the screen is not cleared. *)
Theorem main_clears_the_screen_on_windows_only (cwd : pystr -> file)
    (net : nat -> pystr -> dict json -> server) (stdin : list keyboard) :
  filter is_system (fst (main cwd net stdin))
  = (if str_eqb os_name (str "nt") then [System (str "cls")] else []) /\
  (str_eqb os_name (str "nt") = true ->
   exists rest, fst (main cwd net stdin) = System (str "cls") :: rest).
Proof.
  assert (Hno : forall l, Forall (fun e => is_system e = false) l ->
                          filter is_system l = []).
  { induction 1 as [|x l Hx _ IH]; simpl; [reflexivity|]. now rewrite Hx. }
  unfold main.
  destruct (load_syllabus_data cwd) as [[e|sd] lg].
  - cbn [fst]. rewrite !filter_app.
    rewrite (filter_map_logged_none is_system lg (fun _ => eq_refl)).
    unfold clear_terminal.
    destruct (str_eqb os_name (str "nt")); split; try reflexivity;
      try discriminate.
    intros _. eexists; reflexivity.
  - pose proof (@conversation_effects (fun e => is_system e = false)
                  sd net stdin eq_refl (fun _ => eq_refl)
                  (fun _ _ _ => eq_refl) (fun _ => eq_refl) 0%nat) as Htalk.
    destruct (conversation sd net 0 stdin) as [talk how]. cbn [fst] in Htalk.
    apply Hno in Htalk.
    destruct how; cbn [fst]; rewrite !filter_app, Htalk;
      rewrite (filter_map_logged_none is_system lg (fun _ => eq_refl));
      unfold clear_terminal;
      destruct (str_eqb os_name (str "nt")); split; try reflexivity;
        try discriminate; intros _; eexists; reflexivity.
Qed.

Lemma conversation_without_blanks syllabus_data net stdin :
  leaves [] = false ->
  forall asked,
    snd (conversation syllabus_data net asked stdin)
    = snd (conversation syllabus_data net asked
             (filter (fun k => negb (is_blank k)) stdin)) /\
    filter (fun e => negb (is_chatter e))
           (fst (conversation syllabus_data net asked stdin))
    = filter (fun e => negb (is_chatter e))
             (fst (conversation syllabus_data net asked
                     (filter (fun k => negb (is_blank k)) stdin))).
Proof.
  intros Hempty.
  induction stdin as [|[line|] rest IH]; intros asked.
  - split; reflexivity.
  - destruct (typed_cases line) as [Hl | [[Hl Hb] | [Hl Hb]]].
    + assert (Hkeep : is_blank (Typed line) = false).
      { unfold is_blank. destruct (strip line); [|reflexivity].
        rewrite Hempty in Hl. discriminate. }
      cbn [filter]. rewrite Hkeep. cbn [negb].
      rewrite !conversation_leaves by assumption. split; reflexivity.
    + assert (Hdrop : is_blank (Typed line) = true).
      { unfold is_blank. now rewrite Hb. }
      cbn [filter]. rewrite Hdrop. cbn [negb].
      rewrite conversation_blank by assumption. cbn [fst snd].
      destruct (IH asked) as [Hs Hf]. split; [exact Hs|].
      cbn [filter is_chatter prompt print].
      rewrite str_eqb_refl, orb_true_r. cbn [negb orb]. exact Hf.
    + assert (Hkeep : is_blank (Typed line) = false).
      { unfold is_blank. destruct (strip line); [contradiction|reflexivity]. }
      cbn [filter]. rewrite Hkeep. cbn [negb].
      rewrite !conversation_asks by assumption.
      destruct (chat_with_gpt (strip line) syllabus_data
                  (setup_session (net asked))) as [[e|response] lg];
        [split; reflexivity|].
      cbn [fst snd]. destruct (IH (S asked)) as [Hs Hf].
      split; [exact Hs|].
      cbn [filter is_chatter prompt]. rewrite str_eqb_refl. cbn [negb orb].
      rewrite !filter_app. cbn [filter]. now rewrite Hf.
  - split; reflexivity.
Qed.

(** X17. A blank line costs a notice and nothing else: with the blank
    lines taken out of the input, [main] ends the same way and does the
    same things, apart from the prompts and the notices it writes. The
    premise holds for the case mapping of Python, which leaves the empty
    string as it is. *)
Theorem main_ignores_blank_lines (cwd : pystr -> file)
    (net : nat -> pystr -> dict json -> server) (stdin : list keyboard) :
  leaves [] = false ->
  snd (main cwd net stdin)
  = snd (main cwd net (filter (fun k => negb (is_blank k)) stdin)) /\
  filter (fun e => negb (is_chatter e)) (fst (main cwd net stdin))
  = filter (fun e => negb (is_chatter e))
           (fst (main cwd net (filter (fun k => negb (is_blank k)) stdin))).
Proof.
  intros Hempty. unfold main.
  destruct (load_syllabus_data cwd) as [[e|sd] lg]; [split; reflexivity|].
  destruct (conversation_without_blanks sd net stdin Hempty 0) as [Hs Hf].
  destruct (conversation sd net 0 stdin) as [talk how].
  destruct (conversation sd net 0 (filter (fun k => negb (is_blank k)) stdin))
    as [talk' how'].
  cbn [fst snd] in Hs, Hf. subst how'.
  destruct how; cbn [fst snd]; (split; [reflexivity|]);
    rewrite !filter_app, Hf; reflexivity.
Qed.

End Main_properties.

(* ===================================================================== *)
(** * Runs of the program *)
(* ===================================================================== *)

Module Checks.

Import Samples Dialogue.

Lemma make_request_by_status_witness :
  @make_request reference_json endpoint [] (receiving not_found)
  = (inr [(str "error",
           str "HTTP error: 404 Client Error: Not Found for url: http://localhost:11434/api/generat")],
     [(ERROR,
       HTTP_error_occurred
         (str "404 Client Error: Not Found for url: http://localhost:11434/api/generat"))]).
Proof.
  apply (proj1 (@make_request_by_status reference_json endpoint []
                  (receiving not_found) not_found eq_refl)).
  split; [discriminate | reflexivity].
Defined.

Lemma unexpected_json_line_escapes_witness :
  result (@make_request reference_json endpoint [] (receiving with_a_list))
  = inl AttributeError.
Proof.
  apply (@unexpected_json_line_escapes reference_json endpoint []
           (receiving with_a_list) with_a_list
           [json_bytes "{'response':'Hi'}"] [] (json_bytes "[1]")
           (str "[1]") (JList [JInt 1])).
  - reflexivity.
  - reflexivity.
  - reflexivity.
  - apply Forall_cons; [|apply Forall_nil].
    right; right. eexists _, _. repeat split; vm_compute; reflexivity.
  - discriminate.
  - reflexivity.
  - reflexivity.
  - exact I.
Defined.

Lemma broken_stream_drops_the_text_witness :
  result (@make_request reference_json endpoint [] (receiving cut_short))
  = inr [(str "error", str "An unexpected error occurred.")].
Proof.
  apply (@broken_stream_drops_the_text reference_json endpoint []
           (receiving cut_short) cut_short ChunkedEncodingError
           (str "Connection broken")).
  - reflexivity.
  - reflexivity.
  - apply Forall_cons; [|apply Forall_nil].
    right; right. eexists _, _. repeat split; vm_compute; reflexivity.
  - reflexivity.
Defined.

Lemma unfinished_passes : Forall (@passes reference_json) unfinished.
Proof.
  apply Forall_cons; [|apply Forall_cons; [|apply Forall_cons; [|apply Forall_nil]]].
  - right; right. eexists _, _. repeat split; vm_compute; reflexivity.
  - right; left. reflexivity.
  - right; right. eexists _, _. repeat split; vm_compute; reflexivity.
Defined.

Lemma log_names_the_malformed_lines_witness :
  rejected_lines
    (logged (@make_request reference_json endpoint [] (answering unfinished)))
  = [json_bytes "not json"].
Proof.
  apply (@log_names_the_malformed_lines reference_json endpoint []
           (answering unfinished) (ok_response unfinished)).
  - reflexivity.
  - reflexivity.
  - reflexivity.
  - exact unfinished_passes.
Defined.


Lemma malformed_lines_are_skipped_and_reported_witness :
  rejected_lines
    (logged (@make_request reference_json endpoint [] (answering noisy)))
  = filter (@malformed reference_json)
      (@lines_read reference_json [] (lines (ok_response noisy))).
Proof.
  apply (@malformed_lines_are_skipped_and_reported reference_json endpoint []
           (answering noisy) (ok_response noisy)).
  - reflexivity.
  - reflexivity.
Defined.

Lemma unparsed_line_aborts_the_request_witness :
  Samples.run [deeply_nested; json_bytes "{'response':'Hi','done':true}"]
  = inl RecursionError /\
  Samples.run [json_bytes "{'response':'Hi','done':true}"]
  = inr [(str "text", str "Hi")].
Proof.
  split; [|reflexivity].
  apply (@unparsed_line_aborts_the_request reference_json endpoint []
           (answering [deeply_nested;
                       json_bytes "{'response':'Hi','done':true}"])
           (ok_response [deeply_nested;
                         json_bytes "{'response':'Hi','done':true}"])
           [] [json_bytes "{'response':'Hi','done':true}"] deeply_nested
           (repeat 91 1000) RecursionError).
  - reflexivity.
  - reflexivity.
  - reflexivity.
  - apply Forall_nil.
  - discriminate.
  - vm_compute. reflexivity.
  - vm_compute. reflexivity.
  - discriminate.
  - discriminate.
Defined.



Lemma unanswered_request_is_a_connection_error_witness :
  post_attempts (down 0 endpoint []) = 6%nat /\
  result (@make_request reference_json endpoint [] (setup_session (down 0)))
  = inr [(str "error",
          str "Connection error. Please check if the Ollama server is running.")].
Proof.
  eapply (@unanswered_request_is_a_connection_error reference_json).
  - reflexivity.
  - intros n. eexists _, _, _. reflexivity.
Defined.


Lemma redirected_post_can_time_out_witness :
  post_attempts (moved 0 endpoint []) = 2%nat /\
  post (setup_session (moved 0)) endpoint []
  = inl (Requests ReadTimeout
           (str "HTTPConnectionPool(host='localhost', port=11434): Read timed out. (read timeout=10)")) /\
  result (@make_request reference_json endpoint [] (setup_session (moved 0)))
  = inr [(str "error",
          str "The request timed out. Please try again later.")].
Proof.
  eapply (@redirected_post_can_time_out reference_json (moved 0) endpoint []).
  - reflexivity.
  - reflexivity.
  - simpl. tauto.
  - reflexivity.
Defined.

Lemma redirects_are_followed_thirty_times_witness :
  post_attempts (circular 0 endpoint []) = 31%nat /\
  post (setup_session (circular 0)) endpoint []
  = inl (Requests TooManyRedirects (str "Exceeded 30 redirects.")) /\
  result (@make_request reference_json endpoint []
            (setup_session (circular 0)))
  = inr [(str "error", str "An unexpected error occurred.")].
Proof.
  apply (proj2 (@redirects_are_followed_thirty_times reference_json
                  (circular 0) endpoint [] Temporary_Redirect 40) silent).
  - reflexivity.
  - repeat constructor.
Defined.

Lemma post_makes_at_most_six_attempts_per_request_witness :
  post_attempts (unavailable_then_ok 5 [json_bytes "{'response':'Hi'}"])
  = 6%nat /\
  (exists response,
      post (setup_session
              (fun _ _ =>
                 unavailable_then_ok 5 [json_bytes "{'response':'Hi'}"]))
        endpoint [] = inr response /\
      status_code response = 200%Z /\
      lines response = [json_bytes "{'response':'Hi'}"]) /\
  result (@make_request reference_json endpoint []
            (setup_session
               (fun _ _ =>
                  unavailable_then_ok 5 [json_bytes "{'response':'Hi'}"])))
  = Samples.run [json_bytes "{'response':'Hi'}"].
Proof.
  destruct post_makes_at_most_six_attempts_per_request
    as (_ & _ & _ & _ & Hok & _).
  apply (Hok reference_json
           (fun _ _ => unavailable_then_ok 5 [json_bytes "{'response':'Hi'}"])
           endpoint [] [json_bytes "{'response':'Hi'}"] 5%nat).
  - reflexivity.
  - repeat constructor.
Defined.

Lemma payload_without_context_file_witness :
  exists syllabus_data,
    result (@load_syllabus_data reference_json no_file) = inr syllabus_data /\
    forall prompt,
      @create_request_data bare_environ prompt syllabus_data
      = [(str "model", JStr (@MODEL_NAME bare_environ));
         (str "prompt", JStr prompt)].
Proof.
  apply (@payload_without_context_file bare_environ reference_json).
  left. reflexivity.
Defined.

Lemma main_closes_the_session_witness :
  exists before,
    fst (run posix no_file polite [Typed (str "hi"); Typed (str " Quit ")])
    = before ++ [Session_close] /\
    Forall (fun e => is_close e = false) before.
Proof.
  apply (@main_closes_the_session bare_environ reference_json ascii_lower
           posix no_file polite [Typed (str "hi"); Typed (str " Quit ")]
           (JDict [])).
  reflexivity.
Defined.

Lemma main_stops_when_the_context_raises_witness :
  snd (run posix locked_file polite [Typed (str "hi")])
  = Some (Exception (OSError "PermissionError")) /\
  run posix locked_file polite [Typed (str "hi")]
  = run posix locked_file down [] /\
  Forall (fun ef => is_close ef || is_chatter ef = false)
         (fst (run posix locked_file polite [Typed (str "hi")])).
Proof.
  apply (@main_stops_when_the_context_raises bare_environ reference_json
           ascii_lower posix locked_file polite down
           [Typed (str "hi")] [] (OSError "PermissionError")).
  reflexivity.
Defined.

Lemma main_asks_only_real_prompts_witness :
  run posix no_file polite [Typed (str "hi"); Typed (str "  "); Interrupt]
  = run posix no_file picky [Typed (str "hi"); Typed (str "  "); Interrupt].
Proof.
  apply (@main_asks_only_real_prompts bare_environ reference_json ascii_lower
           posix no_file polite picky).
  intros n data user_input Hprompt _ Hne _.
  unfold picky. rewrite Hprompt.
  destruct user_input; [contradiction | reflexivity].
Defined.

Lemma main_reads_nothing_after_leaving_witness :
  run posix no_file polite
    ([Typed (str "hi")] ++ Typed (str "BYE") :: [Typed (str "more")])
  = run posix no_file polite ([Typed (str "hi")] ++ [Typed (str "BYE")]).
Proof.
  apply (@main_reads_nothing_after_leaving bare_environ reference_json
           ascii_lower posix no_file polite
           [Typed (str "hi")] [Typed (str "more")] (Typed (str "BYE"))).
  reflexivity.
Defined.

Lemma main_returns_only_when_told_witness :
  In Interrupt [Typed (str "hi"); Interrupt] \/
  exists line,
    In (Typed line) [Typed (str "hi"); Interrupt] /\
    @leaves ascii_lower (strip line) = true.
Proof.
  apply (@main_returns_only_when_told bare_environ reference_json ascii_lower
           posix no_file polite [Typed (str "hi"); Interrupt]).
  reflexivity.
Defined.


Lemma main_ignores_blank_lines_witness :
  snd (run posix no_file polite [Typed (str "  "); Typed (str "hi"); Typed []])
  = snd (run posix no_file polite [Typed (str "hi")]) /\
  filter (fun e => negb (is_chatter e))
         (fst (run posix no_file polite
                 [Typed (str "  "); Typed (str "hi"); Typed []]))
  = filter (fun e => negb (is_chatter e))
           (fst (run posix no_file polite [Typed (str "hi")])).
Proof.
  apply (@main_ignores_blank_lines bare_environ reference_json ascii_lower
           posix no_file polite
           [Typed (str "  "); Typed (str "hi"); Typed []]).
  reflexivity.
Defined.

End Checks.
